(** * easymep: a shallow embedding of [easymep.py]

    The deployment script packages a local file or directory, copies the
    archive to a server with [scp] and streams a fixed list of shell
    instructions into one [ssh] session.  This development embeds the
    script function by function and states the properties of its
    specification over the embedding.

    Python values are modelled as follows:
    - [str] is [string]; [bytes] is [string] as well ([encode] to UTF-8 is the
      identity on the model);
    - a [list] is a [list], index assignment out of range raises [IndexError];
    - a [dict] with [str] keys is a [gmap string];
    - exceptions are values of [exn], carried by the [result] type;
    - the file system, the clock and the external programs are a [state]
      threaded through a small state-and-exception monad, together with a
      fault oracle that decides which external call raises;
    - [tarfile] compares absolute paths: [posixpath.abspath] is modelled
      with the current directory as a parameter. *)

From Stdlib Require Import String Ascii List Bool Arith ZArith Lia.
From stdpp Require Import base option list gmap strings.

Import ListNotations.
Local Open Scope string_scope.
Local Open Scope list_scope.

(** ** Python strings *)

Module PyStr.

(** [sub in s] *)
Fixpoint contains (sub s : string) : bool :=
  String.prefix sub s ||
  match s with
  | EmptyString => false
  | String _ s' => contains sub s'
  end.

(** [s.startswith(p)] *)
Definition startswith (p s : string) : bool := String.prefix p s.

(** [s.endswith(c)] for a one-character [c] *)
Fixpoint endswith_char (c : ascii) (s : string) : bool :=
  match s with
  | EmptyString => false
  | String a EmptyString => Ascii.eqb a c
  | String _ s' => endswith_char c s'
  end.

(** [s.split(c)] for a one-character separator: never the empty list. *)
Fixpoint split (c : ascii) (s : string) : list string :=
  match s with
  | EmptyString => [EmptyString]
  | String a s' =>
      if Ascii.eqb a c then EmptyString :: split c s'
      else match split c s' with
           | [] => [String a EmptyString]
           | w :: ws => String a w :: ws
           end
  end.

(** [s.lstrip(c)] for a one-character [c] *)
Fixpoint lstrip (c : ascii) (s : string) : string :=
  match s with
  | EmptyString => EmptyString
  | String a s' => if Ascii.eqb a c then lstrip c s' else s
  end.

(** [s[:-n]]: everything but the last [n] characters, [""] when [s] is
    shorter than [n]. *)
Definition drop_last (n : nat) (s : string) : string :=
  String.substring 0 (String.length s - n) s.

(** [s[n:]] *)
Fixpoint drop_first (n : nat) (s : string) : string :=
  match n, s with
  | O, _ => s
  | S _, EmptyString => EmptyString
  | S n', String _ s' => drop_first n' s'
  end.

(** [s[:n]] *)
Definition take_first (n : nat) (s : string) : string :=
  String.substring 0 n s.

(** [s.index(c)]: position of the first [c], [None] for [ValueError]. *)
Fixpoint index_char (c : ascii) (s : string) : option nat :=
  match s with
  | EmptyString => None
  | String a s' =>
      if Ascii.eqb a c then Some 0
      else match index_char c s' with
           | Some i => Some (S i)
           | None => None
           end
  end.

(** [sep.join(l)] *)
Definition join (sep : string) (l : list string) : string :=
  String.concat sep l.

End PyStr.

(** ** Exceptions and results *)

(** The exception classes the script can meet.  [IOError] is an alias of
    [OSError] in Python 3; [KeyboardInterrupt] stands for the classes that
    derive from [BaseException] only. *)
Inductive exn_class : Set :=
| OSError
| AttributeError
| KeyError
| IndexError
| TypeError
| GetoptError
| UnicodeEncodeError
| OtherException
| KeyboardInterrupt.

Record exn : Set := mk_exn { exn_cls : exn_class; exn_msg : string }.

Definition exn_class_eqb (a b : exn_class) : bool :=
  match a, b with
  | OSError, OSError | AttributeError, AttributeError | KeyError, KeyError
  | IndexError, IndexError | TypeError, TypeError | GetoptError, GetoptError
  | UnicodeEncodeError, UnicodeEncodeError | OtherException, OtherException
  | KeyboardInterrupt, KeyboardInterrupt => true
  | _, _ => false
  end.

(** [isinstance(x, IOError)] *)
Definition is_IOError (x : exn) : bool := exn_class_eqb (exn_cls x) OSError.
(** [isinstance(x, AttributeError)] *)
Definition is_AttributeError (x : exn) : bool :=
  exn_class_eqb (exn_cls x) AttributeError.
(** [isinstance(x, Exception)] *)
Definition is_Exception (x : exn) : bool :=
  negb (exn_class_eqb (exn_cls x) KeyboardInterrupt).

Inductive result (A : Type) : Type :=
| Ok (a : A)
| Raise (x : exn).
Arguments Ok {A} a.
Arguments Raise {A} x.

Definition rbind {A B} (r : result A) (k : A -> result B) : result B :=
  match r with
  | Ok a => k a
  | Raise x => Raise x
  end.

Declare Scope result_scope.
Delimit Scope result_scope with result.
Notation "'let?' x ':=' r 'in' k" := (rbind r (fun x => k))
  (at level 10, x pattern, r at level 100, k at level 200) : result_scope.

(** [l[i] = v] on a Python list *)
Definition list_setitem {A} (l : list A) (i : nat) (v : A) : result (list A) :=
  if Nat.ltb i (List.length l) then Ok (<[i := v]> l)
  else Raise (mk_exn IndexError "list assignment index out of range").

(** [l[i]] on a Python list *)
Definition list_getitem (l : list string) (i : nat) : result string :=
  match l !! i with
  | Some v => Ok v
  | None => Raise (mk_exn IndexError "list index out of range")
  end.

(** [l[-1:]] *)
Definition list_last_slice {A} (l : list A) : list A :=
  drop (List.length l - 1) l.

Fixpoint foldM {A B} (f : B -> A -> result B) (l : list A) (b : B) : result B :=
  match l with
  | [] => Ok b
  | a :: l' => rbind (f b a) (foldM f l')
  end.

(** ** Constants of the script *)

Inductive MessageTypes : Set := MSG_SUCCESS | MSG_ERROR | MSG_RESET.

Module ExitCodes.
Inductive t : Set := SUCCESS | IO_ERROR | ATTRIBUTE_ERROR | GENERAL.

Definition value (c : t) : Z :=
  match c with
  | SUCCESS => 0
  | IO_ERROR => 1
  | ATTRIBUTE_ERROR => 2
  | GENERAL => 3
  end%Z.

Definition eqb (a b : t) : bool := Z.eqb (value a) (value b).
End ExitCodes.

Definition ATTRIBUTE_CODE : nat := 0.
Definition ARGUMENT_CODE : nat := 1.
Definition OPTIONS_LIST_MAX : nat := 4.
Definition OPTIONS_LIST_MIN : nat := 3.

(** ** [__is_attributes_valid] *)

Local Open Scope result_scope.

(** One iteration of the loop over [attributes]: the [if]/[elif] chain on the
    three mandatory attributes, then the separate test of the restart flag
    when four attributes were given.  Every test is a substring test. *)
Definition is_attributes_valid_step (n_attributes : nat)
    (validation : list bool) (attribute : string) : result (list bool) :=
  let? validation :=
    (if PyStr.contains "local-path" attribute || PyStr.contains "l" attribute
     then list_setitem validation 0 true
     else if PyStr.contains "server" attribute || PyStr.contains "s" attribute
     then list_setitem validation 1 true
     else if PyStr.contains "server-path" attribute
             || PyStr.contains "d" attribute
     then list_setitem validation 2 true
     else Ok validation) in
  if Nat.eqb n_attributes OPTIONS_LIST_MAX then
    if PyStr.contains "restart-apache" attribute || PyStr.contains "a" attribute
    then list_setitem validation 3 true
    else Ok validation
  else Ok validation.

Definition is_attributes_valid (attributes : list string) : result bool :=
  let validation := map (fun _ => false) attributes in
  let? validation :=
    foldM (is_attributes_valid_step (List.length attributes)) attributes
          validation in
  Ok (forallb (fun is_valid_attribute => is_valid_attribute) validation).

(** ** [getopt.getopt] of the standard library

    The script calls [getopt(argv[1:], shortopts, longopts)].  The functions
    below follow the module's [getopt], [do_longs], [long_has_args],
    [do_shorts] and [short_has_arg]. *)

Module Getopt.

Definition options : Type := list (string * string).

Definition error (msg : string) : exn := mk_exn GetoptError msg.

Fixpoint short_has_arg (opt : ascii) (shortopts : string) : result bool :=
  match shortopts with
  | EmptyString =>
      Raise (error ("option -" ++ String opt "" ++ " not recognized"))
  | String c rest =>
      if Ascii.eqb opt c && negb (Ascii.eqb c ":")
      then Ok (PyStr.startswith ":" rest)
      else short_has_arg opt rest
  end.

Fixpoint do_shorts (opts : options) (optstring shortopts : string)
    (args : list string) : result (options * list string) :=
  match optstring with
  | EmptyString => Ok (opts, args)
  | String opt optstring =>
      let? has_arg := short_has_arg opt shortopts in
      if has_arg then
        let? (optstring, args) :=
          (if String.eqb optstring "" then
             match args with
             | [] => Raise (error ("option -" ++ String opt ""
                                    ++ " requires argument"))
             | a :: args => Ok (a, args)
             end
           else Ok (optstring, args)) in
        Ok (opts ++ [(("-" ++ String opt "")%string, optstring)], args)
      else
        do_shorts (opts ++ [(("-" ++ String opt "")%string, "")]) optstring shortopts
                  args
  end.

Definition long_has_args (opt : string) (longopts : list string)
    : result (bool * string) :=
  let possibilities := List.filter (PyStr.startswith opt) longopts in
  match possibilities with
  | [] => Raise (error ("option --" ++ opt ++ " not recognized"))
  | unique_match :: others =>
      if existsb (String.eqb opt) possibilities then Ok (false, opt)
      else if existsb (String.eqb (opt ++ "=")%string) possibilities
      then Ok (true, opt)
      else
        match others with
        | _ :: _ => Raise (error ("option --" ++ opt ++ " not a unique prefix"))
        | [] =>
            let has_arg := PyStr.endswith_char "=" unique_match in
            Ok (has_arg,
                if has_arg then PyStr.drop_last 1 unique_match
                else unique_match)
        end
  end.

Definition do_longs (opts : options) (opt : string) (longopts : list string)
    (args : list string) : result (options * list string) :=
  let '(opt, optarg) :=
    match PyStr.index_char "=" opt with
    | None => (opt, None)
    | Some i => (PyStr.take_first i opt, Some (PyStr.drop_first (S i) opt))
    end in
  let? (has_arg, opt) := long_has_args opt longopts in
  let? (optarg, args) :=
    (if has_arg then
       match optarg, args with
       | Some v, _ => Ok (v, args)
       | None, [] => Raise (error ("option --" ++ opt ++ " requires argument"))
       | None, a :: args => Ok (a, args)
       end
     else
       match optarg with
       | Some _ =>
           Raise (error ("option --" ++ opt ++ " must not have an argument"))
       | None => Ok ("", args)
       end) in
  Ok (opts ++ [(("--" ++ opt)%string, optarg)], args).

(** The [while] loop of [getopt]; every iteration consumes at least one
    element of [args], so [length args] iterations are enough. *)
Fixpoint getopt_loop (fuel : nat) (opts : options) (args : list string)
    (shortopts : string) (longopts : list string)
    : result (options * list string) :=
  match args with
  | [] => Ok (opts, args)
  | arg0 :: rest =>
      if PyStr.startswith "-" arg0 && negb (String.eqb arg0 "-") then
        if String.eqb arg0 "--" then Ok (opts, rest)
        else
          match fuel with
          | O => Ok (opts, args)
          | S fuel =>
              let? (opts, args) :=
                (if PyStr.startswith "--" arg0
                 then do_longs opts (PyStr.drop_first 2 arg0) longopts rest
                 else do_shorts opts (PyStr.drop_first 1 arg0) shortopts rest)
              in
              getopt_loop fuel opts args shortopts longopts
          end
      else Ok (opts, args)
  end.

Definition getopt (args : list string) (shortopts : string)
    (longopts : list string) : result (options * list string) :=
  getopt_loop (List.length args) [] args shortopts longopts.

End Getopt.

(** ** [pathlib.PurePosixPath]

    A path is its root ([""], ["/"] or ["//"]) and the components after it;
    empty components and ["."] are dropped when a string is parsed. *)

Module PurePath.

Record t : Set := mk { root : string; parts : list string }.

Definition keep_part (x : string) : bool :=
  negb (String.eqb x "") && negb (String.eqb x ".").

(** [PurePosixPath(s)] *)
Definition parse (s : string) : t :=
  let stripped := PyStr.lstrip "/" s in
  let slashes := String.length s - String.length stripped in
  {| root := if Nat.eqb slashes 0 then ""
             else if Nat.eqb slashes 2 then "//" else "/";
     parts := List.filter keep_part (PyStr.split "/" stripped) |}.

(** [str(p)] *)
Definition str (p : t) : string :=
  let s := (root p ++ PyStr.join "/" (parts p))%string in
  if String.eqb s "" then "." else s.

(** [p.parent] *)
Definition parent (p : t) : t :=
  {| root := root p; parts := removelast (parts p) |}.

(** [p.name] *)
Definition name (p : t) : string := List.last (parts p) "".

(** [p / key] *)
Definition joinpath (p : t) (key : string) : t :=
  let q := parse key in
  if String.eqb (root q) "" then
    {| root := root p; parts := parts p ++ parts q |}
  else q.

End PurePath.

(** ** [posixpath]

    [tarfile] compares the absolute path of a file with the absolute path of
    the archive; [abspath] is [normpath] of the path joined to the current
    directory. *)

Module PosixPath.

(** [isabs(s)] *)
Definition isabs (s : string) : bool := PyStr.startswith "/" s.

(** [join(a, b)] *)
Definition join (a b : string) : string :=
  if PyStr.startswith "/" b then b
  else if String.eqb a "" || PyStr.endswith_char "/" a then (a ++ b)%string
  else (a ++ "/" ++ b)%string.

(** One iteration of the loop of [normpath] over the components: empty
    components and ["."] are skipped, [".."] removes the component before it
    unless there is none to remove. *)
Definition normpath_step (initial_slashes : nat) (new_comps : list string)
    (comp : string) : list string :=
  if String.eqb comp "" || String.eqb comp "." then new_comps
  else if negb (String.eqb comp "..")
          || (Nat.eqb initial_slashes 0
              && match new_comps with [] => true | _ :: _ => false end)
          || match last new_comps with
             | Some c => String.eqb c ".."
             | None => false
             end
  then new_comps ++ [comp]
  else removelast new_comps.

(** [normpath(path)] *)
Definition normpath (path : string) : string :=
  if String.eqb path "" then "."
  else
    let initial_slashes :=
      if PyStr.startswith "/" path then
        if PyStr.startswith "//" path && negb (PyStr.startswith "///" path)
        then 2 else 1
      else 0 in
    let comps :=
      foldl (normpath_step initial_slashes) [] (PyStr.split "/" path) in
    let path :=
      (match initial_slashes with
       | 0 => ""
       | 1 => "/"
       | _ => "//"
       end ++ PyStr.join "/" comps)%string in
    if String.eqb path "" then "." else path.

(** [abspath(path)] when [os.getcwd()] returns [cwd] *)
Definition abspath (cwd path : string) : string :=
  normpath (if isabs path then path else join cwd path).

End PosixPath.

(** ** [time.strftime("%d_%m_%y")] *)

Record struct_time : Set :=
  mk_time { tm_year : nat; tm_mon : nat; tm_mday : nat }.

Definition digit (d : nat) : ascii := ascii_of_nat (48 + d mod 10).

(** A field printed on two decimal digits, zero padded ([%d], [%m], [%y]). *)
Definition two_digits (n : nat) : string :=
  String (digit (n / 10)) (String (digit n) "").

Definition strftime_d_m_y (t : struct_time) : string :=
  two_digits (tm_mday t) ++ "_" ++ two_digits (tm_mon t) ++ "_"
  ++ two_digits (tm_year t mod 100).

(** ** The world outside the script *)

(** What sits at a path of the local file system.  An archive is described by
    its top-level members: the name in the archive and the path it was added
    from. *)
Inductive node : Set :=
| Directory
| RegularFile
| TarArchive (members : list (string * string)).

(** The calls that leave the interpreter. *)
Inductive op : Set :=
| Print (args : list string)                 (* the built-in print *)
| Stat (path : string)                       (* Path.exists(), Path.is_dir() *)
| OpenW (path : string)                      (* open(path, mode="w").close() *)
| TarOpen (path : string)                    (* tarfile.open(path, "w|bz2") *)
| TarAdd (path name arcname : string)        (* tar_file.add(name, arcname) *)
| TarClose (path : string)                   (* TarFile.__exit__, no error *)
| Call (args : list string)                  (* subprocess.call(args) *)
| Popen (args : list string)                 (* subprocess.Popen(args, ...) *)
| StdinWrite (data : string)                 (* ssh_pipe.stdin.write(data) *)
| StdinFlush                                 (* ssh_pipe.stdin.flush() *)
| PopenExit                                  (* Popen.__exit__: close, wait *)
| OsRemove (path : string).                  (* os.remove(path) *)

(** A call either completes or raises. *)
Inductive event : Set :=
| Done (o : op)
| Failed (o : op) (x : exn).

(** What the script cannot decide: which external call raises (given the
    calls made so far), the local time read by [time.strftime], the exit
    status returned by [subprocess.call] and the current directory returned
    by [os.getcwd]. *)
Record env : Type := mk_env {
  fault : list event -> op -> option exn;
  localtime : struct_time;
  call_status : Z;
  cwd : string
}.

Record state : Type := mk_state {
  fs : gmap string node;
  trace : list event
}.

(** The effect of a completed call on the local file system.
    [tar_file.add(name, arcname)] adds the file [name] under the name
    [arcname], unless [name] is the archive itself: [TarFile.add] returns
    without adding anything when [os.path.abspath(name) == self.name], where
    [self.name] is the absolute path of the archive. *)
Definition effect (cwd : string) (o : op) (files : gmap string node)
    : gmap string node :=
  match o with
  | OpenW p => <[p := RegularFile]> files
  | TarOpen p => <[p := TarArchive []]> files
  | TarAdd p name arcname =>
      if String.eqb (PosixPath.abspath cwd name) (PosixPath.abspath cwd p)
      then files
      else
        match files !! p with
        | Some (TarArchive members) =>
            <[p := TarArchive (members ++ [(arcname, name)])]> files
        | _ => files
        end
  | OsRemove p => delete p files
  | _ => files
  end.

(** [os.stat] found something at the path. *)
Definition node_exists (n : option node) : bool :=
  match n with
  | Some _ => true
  | None => false
  end.

(** [os.stat] found a directory at the path. *)
Definition node_is_dir (n : option node) : bool :=
  match n with
  | Some Directory => true
  | _ => false
  end.

(** ** The state-and-exception monad *)

Definition M (A : Type) : Type := state -> state * result A.

Definition ret {A} (a : A) : M A := fun st => (st, Ok a).

Definition raise {A} (x : exn) : M A := fun st => (st, Raise x).

Definition lift {A} (r : result A) : M A := fun st => (st, r).

Definition bind {A B} (m : M A) (k : A -> M B) : M B :=
  fun st =>
    match m st with
    | (st', Ok a) => k a st'
    | (st', Raise x) => (st', Raise x)
    end.

(** [try: body  except ... as x: handler x] *)
Definition try_except {A} (body : M A) (handler : exn -> M A) : M A :=
  fun st =>
    match body st with
    | (st', Ok a) => (st', Ok a)
    | (st', Raise x) => handler x st'
    end.

Declare Scope M_scope.
Delimit Scope M_scope with M.
Notation "'let!' x ':=' m 'in' k" := (bind m (fun x => k))
  (at level 10, x pattern, m at level 100, k at level 200) : M_scope.
Notation "m '>>' k" := (bind m (fun _ => k))
  (at level 100, k at level 200, right associativity) : M_scope.
Local Open Scope M_scope.

Definition log (ev : event) (st : state) : state :=
  {| fs := fs st; trace := trace st ++ [ev] |}.

Section Script.

Variable e : env.

(** An external call: the oracle decides whether it raises; when it does
    not, its effect is applied. *)
Definition perform (o : op) : M unit :=
  fun st =>
    match fault e (trace st) o with
    | Some x => (log (Failed o x) st, Raise x)
    | None =>
        ({| fs := effect (cwd e) o (fs st); trace := trace st ++ [Done o] |},
         Ok tt)
    end.

(** The built-in [print] *)
Definition print (args : list string) : M unit :=
  fun st => (log (Done (Print args)) st, Ok tt).

(** [path.exists()] *)
Definition path_exists (p : PurePath.t) : M bool :=
  perform (Stat (PurePath.str p)) >>
  fun st => (st, Ok (node_exists (fs st !! PurePath.str p))).

(** [path.is_dir()] *)
Definition path_is_dir (p : PurePath.t) : M bool :=
  perform (Stat (PurePath.str p)) >>
  fun st => (st, Ok (node_is_dir (fs st !! PurePath.str p))).

(** [with tarfile.open(path, mode="w|bz2") as tar_file: body] *)
Definition with_tarfile_open (path : string) (body : M unit) : M unit :=
  perform (TarOpen path) >> body >> perform (TarClose path).

(** [with Popen(args, stdin=PIPE, stdout=PIPE) as ssh_pipe: body]: the
    session is closed whether [body] raises or not. *)
Definition with_Popen (args : list string) (body : M unit) : M unit :=
  perform (Popen args) >>
  fun st =>
    let '(st', r) := body st in
    match perform PopenExit st' with
    | (st'', Ok _) => (st'', r)
    | (st'', Raise x) => (st'', Raise x)
    end.

End Script.

(** ** Module constants *)

Definition ESC : string := String (ascii_of_nat 27) "".
Definition LF : string := String (ascii_of_nat 10) "".

Definition Fore_RED : string := ESC ++ "[31m".
Definition Fore_GREEN : string := ESC ++ "[32m".
Definition Fore_WHITE : string := ESC ++ "[37m".
Definition Back_BLACK : string := ESC ++ "[40m".

Definition UTF_8 : string := "UTF-8".
Definition ERROR_COLORS : string := Fore_RED ++ Back_BLACK.
Definition SUCCESS_COLORS : string := Fore_GREEN ++ Back_BLACK.
Definition RESET_COLORS : string := Fore_WHITE ++ Back_BLACK.

(** [s.encode(encoding)]: strings of the model are already byte strings. *)
Definition encode (s encoding : string) : string := s.

(** [ERROR_COLORS + ex] with [ex] an exception object: [str.__add__] refuses
    an operand that is not a [str]. *)
Definition str_add_exception (s : string) (ex : exn) : result string :=
  Raise (mk_exn TypeError "Can't convert exception object to str implicitly").

(** ** Dictionaries with string keys *)

Definition dict_contains (d : gmap string string) (key : string) : bool :=
  match d !! key with
  | Some _ => true
  | None => false
  end.

Definition dict_getitem (d : gmap string string) (key : string)
    : result string :=
  match d !! key with
  | Some v => Ok v
  | None => Raise (mk_exn KeyError ("'" ++ key ++ "'"))
  end.

(** [{option[ATTRIBUTE_CODE]: option[ARGUMENT_CODE] for option in l}]: a later
    pair with the same key replaces an earlier one. *)
Definition dict_of_options (l : list (string * string)) : gmap string string :=
  foldl (fun d option => <[fst option := snd option]> d) ∅ l.

(** ** The script *)

Section Easymep.

Variable e : env.

(** [__print_message] *)
Definition print_message (message : string) (type : MessageTypes) : M unit :=
  match type with
  | MSG_RESET => print [RESET_COLORS; message]
  | MSG_ERROR => print [ERROR_COLORS; message]
  | MSG_SUCCESS => print [SUCCESS_COLORS; message; LF]
  end.

(** [__compress_local_file] *)
Definition compress_local_file (local_path : PurePath.t) : M string :=
  let tar_file_path :=
    PurePath.str
      (PurePath.joinpath (PurePath.parent local_path)
                         "compressed_file.tar.bz2") in
  let! is_dir := path_is_dir e local_path in
  (if is_dir then print_message "Compressing the directory..." MSG_RESET
   else print_message "Compressing the file..." MSG_RESET) >>
  perform e (OpenW tar_file_path) >>
  with_tarfile_open e tar_file_path
    (perform e (TarAdd tar_file_path (PurePath.str local_path)
                       "compressed_file")) >>
  print_message "OK!" MSG_SUCCESS >>
  ret tar_file_path.

(** [ssh_pipe.stdin.write(line.encode(UTF_8))] *)
Definition stdin_write (line : string) : M unit :=
  perform e (StdinWrite (encode line UTF_8)).

(** [__ssh_processing] *)
Definition ssh_processing (compressed_file_name server_name
    server_path : string) (restart_apache : bool) : M unit :=
  let archive_name := (strftime_d_m_y (localtime e) ++ ".tar.bz2")%string in
  let new_folder_name := PyStr.drop_last 8 compressed_file_name in
  print_message "Connecting to the server" MSG_RESET >>
  with_Popen e ["ssh"; server_name]
    (print_message "OK!" MSG_SUCCESS >>
     print_message "Archiving the old API..." MSG_RESET >>
     stdin_write ("cd " ++ server_path ++ LF) >>
     stdin_write ("tar -cjf " ++ archive_name ++ " backend/" ++ LF) >>
     stdin_write ("mv ./" ++ archive_name ++ " ./archive" ++ LF) >>
     stdin_write ("rm -r ./backend" ++ LF) >>
     print_message "OK!" MSG_SUCCESS >>
     print_message "Updating the backend..." MSG_RESET >>
     stdin_write ("tar jxf ./" ++ compressed_file_name ++ LF) >>
     stdin_write ("rm ./" ++ compressed_file_name ++ LF) >>
     stdin_write ("mv ./" ++ new_folder_name ++ " backend" ++ LF) >>
     print_message "OK!" MSG_SUCCESS >>
     (if restart_apache then
        print_message "Restarting Apache..." MSG_RESET >>
        stdin_write ("systemctl restart httpd" ++ LF) >>
        print_message "OK!" MSG_SUCCESS
      else ret tt) >>
     perform e StdinFlush).

(** [subprocess.call(args)]: runs the command once and returns its status. *)
Definition call (args : list string) : M Z :=
  perform e (Call args) >> ret (call_status e).

Definition SHORTOPTS : string := "l:s:u:p:d:a".
Definition LONGOPTS : list string :=
  ["local-path="; "server="; "server-path="; "restart-apache"].

(** The body of the [try] block of [main], after [getopt]. *)
Definition deploy (options_list : Getopt.options) : M ExitCodes.t :=
  print_message "Validating the attributes..." MSG_RESET >>
  (if Nat.ltb (List.length options_list) OPTIONS_LIST_MIN
      || Nat.ltb OPTIONS_LIST_MAX (List.length options_list)
   then raise (mk_exn AttributeError
                      "There is not enough or too many arguments passed.")
   else ret tt) >>
  let! valid := lift (is_attributes_valid (map fst options_list)) in
  (if negb valid
   then raise (mk_exn AttributeError
                      "Missing one or many attributes in the call.")
   else ret tt) >>
  print_message "OK!" MSG_SUCCESS >>
  let attr_args_mapping := dict_of_options options_list in
  let! local_path_arg :=
    lift (if dict_contains attr_args_mapping "--local-path"
          then dict_getitem attr_args_mapping "--local-path"
          else dict_getitem attr_args_mapping "-l") in
  let local_path := PurePath.parse local_path_arg in
  let! found := path_exists e local_path in
  (if negb found
   then raise (mk_exn OSError "The path to the local file doesn't exits.")
   else ret tt) >>
  let! compressed_file_path := compress_local_file local_path in
  let! server_path :=
    lift (if dict_contains attr_args_mapping "--server-path"
          then dict_getitem attr_args_mapping "--server-path"
          else dict_getitem attr_args_mapping "-d") in
  let! server_name :=
    lift (if dict_contains attr_args_mapping "--server"
          then dict_getitem attr_args_mapping "--server"
          else dict_getitem attr_args_mapping "-s") in
  print_message "Copying local file to server..." MSG_RESET >>
  let! _ := call ["scp"; compressed_file_path;
                  (server_name ++ ":" ++ server_path)%string] in
  print_message "OK!" MSG_SUCCESS >>
  let! compressed_file_name :=
    lift (list_getitem
            (list_last_slice (PyStr.split "/" compressed_file_path)) 0) in
  ssh_processing compressed_file_name server_name server_path
                 (dict_contains attr_args_mapping "--restart-apache") >>
  perform e (OsRemove compressed_file_path) >>
  print_message "New MEP done!" MSG_SUCCESS >>
  ret ExitCodes.SUCCESS.

(** The three [except] clauses of [main], tried in order.  In the last one
    the concatenation [ERROR_COLORS + ex] is evaluated before [print] is
    called. *)
Definition handler (ex : exn) : M ExitCodes.t :=
  if is_IOError ex then
    print_message (exn_msg ex) MSG_ERROR >> ret ExitCodes.IO_ERROR
  else if is_AttributeError ex then
    print_message (exn_msg ex) MSG_ERROR >> ret ExitCodes.ATTRIBUTE_ERROR
  else if is_Exception ex then
    print_message (exn_msg ex) MSG_ERROR >>
    let! text := lift (str_add_exception ERROR_COLORS ex) in
    print [text] >>
    ret ExitCodes.GENERAL
  else raise ex.

(** [main] *)
Definition main (argv : list string) : M ExitCodes.t :=
  print_message "Beginning the script..." MSG_RESET >>
  try_except
    (print_message "Retreiving attributes..." MSG_RESET >>
     let! (options_list, arguments) :=
       lift (Getopt.getopt (drop 1 argv) SHORTOPTS LONGOPTS) in
     deploy options_list)
    handler.

End Easymep.

(** A run of [main] from a file system, with an empty trace. *)
Definition run (e : env) (files : gmap string node) (argv : list string)
    : state * result ExitCodes.t :=
  main e argv {| fs := files; trace := [] |}.

(** An environment in which no external call raises. *)
Definition quiet (dir : string) (t : struct_time) (status : Z) : env :=
  {| fault := fun _ _ => None; localtime := t; call_status := status;
     cwd := dir |}.

(** * Definitions used by the properties *)

(** ** Strings and paths *)

(** [c in s] for a character [c] *)
Fixpoint has_char (c : ascii) (s : string) : bool :=
  match s with
  | EmptyString => false
  | String a s' => Ascii.eqb a c || has_char c s'
  end.

(** The file name of the archive. *)
Definition ARTIFACT : string := "compressed_file.tar.bz2".

(** The path [__compress_local_file] writes the archive to. *)
Definition artifact_path (local_path : PurePath.t) : string :=
  PurePath.str (PurePath.joinpath (PurePath.parent local_path) ARTIFACT).

(** The source of [__compress_local_file] is the archive itself, for
    [tar_file.add]. *)
Definition is_archive_itself (e : env) (local_path : PurePath.t) : bool :=
  String.eqb (PosixPath.abspath (cwd e) (PurePath.str local_path))
             (PosixPath.abspath (cwd e) (artifact_path local_path)).

(** The top-level members of the archive that [__compress_local_file]
    writes: the source under the fixed name, or nothing when the source is
    the archive itself. *)
Definition archive_members (e : env) (local_path : PurePath.t)
    : list (string * string) :=
  if is_archive_itself e local_path then []
  else [("compressed_file", PurePath.str local_path)].



(** ** Observations on a trace *)

(** The call of an event, completed or not. *)
Definition ev_op (ev : event) : op :=
  match ev with
  | Done o | Failed o _ => o
  end.

(** The data written to the session's input stream, in order. *)
Definition session_writes (tr : list event) : list string :=
  omap (fun ev => match ev with Done (StdinWrite d) => Some d | _ => None end) tr.

(** The sessions that were opened. *)
Definition session_opens (tr : list event) : list (list string) :=
  omap (fun ev => match ev with Done (Popen a) => Some a | _ => None end) tr.

(** The attempts to start a process that is kept open, completed or not. *)
Definition session_attempts (tr : list event) : list (list string) :=
  omap (fun ev => match ev_op ev with Popen a => Some a | _ => None end) tr.

(** The attempts to run a command to completion, completed or not. *)
Definition call_attempts (tr : list event) : list (list string) :=
  omap (fun ev => match ev_op ev with Call a => Some a | _ => None end) tr.

(** The commands that ran to completion. *)
Definition call_completions (tr : list event) : list (list string) :=
  omap (fun ev => match ev with Done (Call a) => Some a | _ => None end) tr.

(** The files that were removed. *)
Definition removals (tr : list event) : list string :=
  omap (fun ev => match ev with Done (OsRemove p) => Some p | _ => None end) tr.

(** Everything but the messages and the queries on the file system. *)
Definition side_effects (tr : list event) : list event :=
  omap (fun ev => match ev_op ev with
                  | Print _ | Stat _ => None
                  | _ => Some ev
                  end) tr.

(** The calls made while packaging. *)
Definition is_packaging_op (o : op) : bool :=
  match o with
  | Stat _ | OpenW _ | TarOpen _ | TarAdd _ _ _ | TarClose _ => true
  | _ => false
  end.

(** [main] returned the exit code [c]. *)
Definition returns (c : ExitCodes.t) (r : result ExitCodes.t) : bool :=
  match r with
  | Ok c' => ExitCodes.eqb c c'
  | Raise _ => false
  end.

(** ** Expected traces *)

(** The instruction list of the remote protocol, as the specification
    writes it. *)
Definition remote_instructions (date_stamp server_path artifact_file_name
    fixed_entry_name : string) (restart : bool) : list string :=
  let archive := (date_stamp ++ ".tar.bz2")%string in
  [("cd " ++ server_path ++ LF)%string;
   ("tar -cjf " ++ archive ++ " backend/" ++ LF)%string;
   ("mv ./" ++ archive ++ " ./archive" ++ LF)%string;
   ("rm -r ./backend" ++ LF)%string;
   ("tar jxf ./" ++ artifact_file_name ++ LF)%string;
   ("rm ./" ++ artifact_file_name ++ LF)%string;
   ("mv ./" ++ fixed_entry_name ++ " backend" ++ LF)%string]
  ++ (if restart then [("systemctl restart httpd" ++ LF)%string] else []).

(** What a successful packaging leaves in the trace. *)
Definition packaging_events (local_path : PurePath.t) (is_dir : bool)
    : list event :=
  let p := artifact_path local_path in
  [Done (Stat (PurePath.str local_path));
   Done (Print [RESET_COLORS;
                if is_dir then "Compressing the directory..."
                else "Compressing the file..."]);
   Done (OpenW p); Done (TarOpen p);
   Done (TarAdd p (PurePath.str local_path) "compressed_file");
   Done (TarClose p);
   Done (Print [SUCCESS_COLORS; "OK!"; LF])].

(** What a session without failure leaves in the trace, up to the last
    instruction. *)
Definition streaming_events (e : env) (name host path : string) (restart : bool)
    : list event :=
  let archive := (strftime_d_m_y (localtime e) ++ ".tar.bz2")%string in
  [Done (Print [RESET_COLORS; "Connecting to the server"]);
   Done (Popen ["ssh"; host]);
   Done (Print [SUCCESS_COLORS; "OK!"; LF]);
   Done (Print [RESET_COLORS; "Archiving the old API..."]);
   Done (StdinWrite ("cd " ++ path ++ LF));
   Done (StdinWrite ("tar -cjf " ++ archive ++ " backend/" ++ LF));
   Done (StdinWrite ("mv ./" ++ archive ++ " ./archive" ++ LF));
   Done (StdinWrite ("rm -r ./backend" ++ LF));
   Done (Print [SUCCESS_COLORS; "OK!"; LF]);
   Done (Print [RESET_COLORS; "Updating the backend..."]);
   Done (StdinWrite ("tar jxf ./" ++ name ++ LF));
   Done (StdinWrite ("rm ./" ++ name ++ LF));
   Done (StdinWrite ("mv ./" ++ PyStr.drop_last 8 name ++ " backend" ++ LF));
   Done (Print [SUCCESS_COLORS; "OK!"; LF])]
  ++ (if restart
      then [Done (Print [RESET_COLORS; "Restarting Apache..."]);
            Done (StdinWrite ("systemctl restart httpd" ++ LF));
            Done (Print [SUCCESS_COLORS; "OK!"; LF])]
      else []).

(** The handler of [main] as a pure function of the exception. *)
Definition handler_prints (x : exn) : list event :=
  if is_Exception x then [Done (Print [ERROR_COLORS; exn_msg x])] else [].

(** The outcome of the handler of [main] as a pure function of the
    exception. *)
Definition handler_result (x : exn) : result ExitCodes.t :=
  if is_IOError x then Ok ExitCodes.IO_ERROR
  else if is_AttributeError x then Ok ExitCodes.ATTRIBUTE_ERROR
  else if is_Exception x
  then Raise (mk_exn TypeError
                     "Can't convert exception object to str implicitly")
  else Raise x.

(** The same environment with another exit status for [subprocess.call]. *)
Definition with_call_status (e : env) (status : Z) : env :=
  {| fault := fault e; localtime := localtime e; call_status := status;
     cwd := cwd e |}.

(** ** Concrete runs *)

Definition demo_env : env := quiet "/home/u" (mk_time 2014 4 19) 0.

Definition demo_files : gmap string node := {[ "/home/u/site" := Directory ]}.

Definition TYPE_ERROR : exn :=
  mk_exn TypeError "Can't convert exception object to str implicitly".

Definition demo_restart_argv : list string :=
  ["easymep.py"; "-l"; "/home/u/site"; "-s"; "example.org"; "-d"; "/srv/www";
   "--restart-apache"].

Definition demo_missing_argv : list string :=
  ["easymep.py"; "-l"; "/nonexistent"; "-s"; "example.org"; "-d"; "/srv/www"].

Definition demo_out : state * result ExitCodes.t :=
  run demo_env demo_files demo_restart_argv.

Definition demo_missing_out : state * result ExitCodes.t :=
  run demo_env demo_files demo_missing_argv.

Definition demo_state : state := {| fs := demo_files; trace := [] |}.




(** ** The validation of the attributes, slot by slot *)

(** The slot of [validation] that the [if]/[elif] chain of
    [__is_attributes_valid] sets for an attribute, if any. *)
Definition attribute_slot (attribute : string) : option nat :=
  if PyStr.contains "local-path" attribute || PyStr.contains "l" attribute
  then Some 0
  else if PyStr.contains "server" attribute || PyStr.contains "s" attribute
  then Some 1
  else if PyStr.contains "server-path" attribute || PyStr.contains "d" attribute
  then Some 2
  else None.

(** The test of the restart flag, made when four attributes are given. *)
Definition restart_test (attribute : string) : bool :=
  PyStr.contains "restart-apache" attribute || PyStr.contains "a" attribute.

(** [attribute] sets the slot [i] when [n] attributes are validated. *)
Definition sets_slot (n : nat) (attribute : string) (i : nat) : bool :=
  match attribute_slot attribute with
  | Some j => Nat.eqb i j
  | None => false
  end
  || (Nat.eqb i 3 && Nat.eqb n OPTIONS_LIST_MAX && restart_test attribute).

(** Every slot of [validation] is set by some attribute. *)
Definition all_slots_set (attributes : list string) : bool :=
  let n := List.length attributes in
  forallb (fun i => existsb (fun a => sets_slot n a i) attributes) (seq 0 n).

(** ** The options [getopt] can return to [main] *)

Definition OPTION_KEYS : list string :=
  ["-l"; "-s"; "-u"; "-p"; "-d"; "-a";
   "--local-path"; "--server"; "--server-path"; "--restart-apache"].

Definition LONG_NAMES : list string :=
  ["local-path"; "server"; "server-path"; "restart-apache"].

(** ** Lines *)

Definition LF_char : ascii := ascii_of_nat 10.

(** The data is one line: its only line break is its last character. *)
Definition one_line (d : string) : bool :=
  match PyStr.index_char LF_char d with
  | Some i => Nat.eqb (S i) (String.length d)
  | None => false
  end.

(** ** More observations on a trace *)

(** The calls of a remote session and the messages around them. *)
Definition is_session_op (o : op) : bool :=
  match o with
  | Print _ | Popen _ | StdinWrite _ | StdinFlush | PopenExit => true
  | _ => false
  end.

(** The calls of the packager and its messages. *)
Definition is_packager_op (o : op) : bool :=
  match o with
  | Print _ => true
  | _ => is_packaging_op o
  end.

(** The attempts to close a session, completed or not. *)
Definition session_exits (tr : list event) : list event :=
  List.filter (fun ev => match ev_op ev with PopenExit => true | _ => false end)
              tr.

(** The files created with [open(path, mode="w")], in order. *)
Definition creations (tr : list event) : list string :=
  omap (fun ev => match ev with Done (OpenW p) => Some p | _ => None end) tr.

(** The exceptions raised by external calls, in order. *)
Definition failures (tr : list event) : list exn :=
  omap (fun ev => match ev with Failed _ x => Some x | Done _ => None end) tr.

(** The archives that were closed. *)
Definition archives_closed (tr : list event) : list string :=
  omap (fun ev => match ev with Done (TarClose p) => Some p | _ => None end) tr.

(** The attempts to remove a file, completed or not. *)
Definition removal_attempts (tr : list event) : list string :=
  omap (fun ev => match ev_op ev with OsRemove p => Some p | _ => None end) tr.

(** ** The block under [if __name__ == '__main__'] *)




(** ** More concrete runs *)

Definition demo_three_attributes : list string := ["-l"; "-s"; "-d"].

Definition demo_five_attributes : list string :=
  ["-l"; "-s"; "-d"; "-a"; "-u"].

Definition demo_single_option_argv : list string := ["easymep.py"; "-l"; "x"].

Definition demo_missing_server_argv : list string :=
  ["easymep.py"; "-l"; "/home/u/site"; "-d"; "/srv/www"; "--restart-apache"].

Definition demo_missing_server_options : list (string * string) :=
  [("-l", "/home/u/site"); ("-d", "/srv/www"); ("--restart-apache", "")].

Definition demo_options : list (string * string) :=
  [("-l", "/nonexistent"); ("-s", "example.org"); ("-d", "/srv/www")].

Definition demo_restart_options : list (string * string) :=
  [("-l", "/home/u/site"); ("-s", "example.org"); ("-d", "/srv/www");
   ("--restart-apache", "")].

(** * Properties *)

(** ** Strings and paths *)

Module PyStrFacts.
Import PyStr.

Lemma app_cons x (a b : string) : (String x a ++ b)%string = String x (a ++ b).
Proof. reflexivity. Qed.

Lemma app_assoc (a b c : string) : ((a ++ b) ++ c = a ++ b ++ c)%string.
Proof.
  induction a as [|x a IH]; [reflexivity|].
  rewrite !app_cons; simpl; congruence.
Qed.

Lemma app_nil_r (a : string) : (a ++ "")%string = a.
Proof.
  induction a as [|x a IH]; [reflexivity|].
  rewrite !app_cons; simpl; congruence.
Qed.

Lemma length_app (a b : string) :
  String.length (a ++ b) = String.length a + String.length b.
Proof.
  induction a as [|x a IH]; [reflexivity|].
  rewrite !app_cons; simpl; congruence.
Qed.

Lemma split_not_nil c s : split c s <> [].
Proof.
  destruct s as [|a s]; simpl; [discriminate|].
  destruct (Ascii.eqb a c); [discriminate|].
  destruct (split c s); discriminate.
Qed.

Lemma split_no_sep c t : has_char c t = false -> split c t = [t].
Proof.
  induction t as [|a t IH]; simpl; intros H; [reflexivity|].
  apply orb_false_iff in H as [Ha Ht].
  rewrite Ha, (IH Ht). reflexivity.
Qed.

Lemma split_app_sep c a t :
  has_char c t = false ->
  exists w l, split c (a ++ String c t)%string = (w :: l) ++ [t].
Proof.
  intros Ht.
  induction a as [|x a IH];
    [change ("" ++ String c t)%string with (String c t)
    |rewrite app_cons]; simpl.
  - rewrite Ascii.eqb_refl, (split_no_sep _ _ Ht). exists "", []. reflexivity.
  - destruct IH as (w & l & ->).
    destruct (Ascii.eqb x c).
    + exists "", (w :: l). reflexivity.
    + exists (String x w), l. reflexivity.
Qed.

Lemma last_split_app_sep c a t d :
  has_char c t = false -> List.last (split c (a ++ String c t)%string) d = t.
Proof.
  intros Ht. destruct (split_app_sep c a t Ht) as (w & l & ->).
  apply List.last_last.
Qed.

Lemma concat_snoc sep x l y :
  String.concat sep ((x :: l) ++ [y])
  = (String.concat sep (x :: l) ++ sep ++ y)%string.
Proof.
  revert x. induction l as [|z l IH]; intros x; [reflexivity|].
  change (String.concat sep ((x :: z :: l) ++ [y]))
    with (x ++ sep ++ String.concat sep ((z :: l) ++ [y]))%string.
  rewrite IH.
  change (String.concat sep (x :: z :: l))
    with (x ++ sep ++ String.concat sep (z :: l))%string.
  rewrite !app_assoc. reflexivity.
Qed.

End PyStrFacts.

Lemma list_last_slice_last {A} (l : list A) d :
  l <> [] -> list_last_slice l = [List.last l d].
Proof.
  intros Hl. destruct (exists_last Hl) as (l' & x & ->).
  unfold list_last_slice.
  rewrite List.last_last, List.length_app. simpl.
  replace (List.length l' + 1 - 1) with (List.length l') by lia.
  rewrite drop_app_length. reflexivity.
Qed.

Module PurePathFacts.
Import PurePath PyStr PyStrFacts.

Lemma joinpath_artifact p :
  joinpath p ARTIFACT = {| root := root p; parts := parts p ++ [ARTIFACT] |}.
Proof. reflexivity. Qed.

Lemma root_parse s :
  root (parse s) = "" \/ root (parse s) = "/" \/ root (parse s) = "//".
Proof.
  unfold parse; simpl.
  destruct (Nat.eqb _ 0); [now left|].
  destruct (Nat.eqb _ 2); [now right; right|now right; left].
Qed.

Lemma artifact_path_split p :
  root p = "" \/ root p = "/" \/ root p = "//" ->
  artifact_path p = ARTIFACT
  \/ exists a, artifact_path p = (a ++ String "/" ARTIFACT)%string.
Proof.
  unfold artifact_path. rewrite joinpath_artifact.
  destruct p as [r ps]. unfold str, parent, root, parts, join.
  intros Hr. destruct (removelast ps) as [|x l].
  - destruct Hr as [-> | [-> | ->]].
    + left. reflexivity.
    + right. exists "". reflexivity.
    + right. exists "/". reflexivity.
  - right. rewrite concat_snoc.
    set (body := (r ++ String.concat "/" (x :: l) ++ "/" ++ ARTIFACT)%string).
    assert (Hne : String.eqb body "" = false).
    { apply String.eqb_neq. intros H. apply (f_equal String.length) in H.
      unfold body in H. rewrite !length_app in H. simpl in H. lia. }
    rewrite Hne. exists (r ++ String.concat "/" (x :: l))%string.
    unfold body. rewrite app_assoc. reflexivity.
Qed.

(** [compressed_file_path.split("/")[-1:][0]] in [main] *)
Lemma artifact_file_name s :
  list_getitem (list_last_slice (split "/" (artifact_path (parse s)))) 0
  = Ok ARTIFACT.
Proof.
  rewrite (list_last_slice_last _ "") by apply split_not_nil.
  destruct (artifact_path_split _ (root_parse s)) as [-> | [a ->]].
  - reflexivity.
  - rewrite last_split_app_sep by reflexivity. reflexivity.
Qed.

End PurePathFacts.

(** ** Observations on a trace *)

(** ** Symbolic execution of the script *)

Ltac stuck t :=
  lazymatch t with
  | (if dict_contains _ _ then dict_getitem _ _ else dict_getitem _ _) => t
  | match ?s with _ => _ end => stuck s
  | (match ?s with _ => _ end) _ => stuck s
  | _ => t
  end.

Ltac exec_norm H :=
  cbv beta iota zeta delta
    [bind perform print ret raise lift try_except log with_Popen
     with_tarfile_open path_exists path_is_dir print_message stdin_write call
     encode effect] in H;
  cbn [trace fs] in H.

Ltac exec_in H :=
  repeat (
    exec_norm H;
    lazymatch type of H with
    | match ?s0 with _ => _ end = _ =>
        let s := stuck s0 in
        lazymatch s with
        | handler _ _ => fail
        | _ => destruct s eqn:?
        end
    end).

Ltac trace_norm := rewrite <- ?List.app_assoc; cbn [app trace fs].

Section Stages.
Variable e : env.

Lemma compress_local_file_inv local_path st st' r :
  compress_local_file e local_path st = (st', r) ->
  exists evs,
    trace st' = trace st ++ evs
    /\ session_writes evs = [] /\ session_attempts evs = []
    /\ call_attempts evs = [] /\ removals evs = []
    /\ forall p, r = Ok p ->
         p = artifact_path local_path
         /\ evs = packaging_events local_path
                    (node_is_dir (fs st !! PurePath.str local_path))
         /\ fs st' = <[p := TarArchive (archive_members e local_path)]> (fs st).
Proof.
  unfold compress_local_file. intros H. exec_in H.
  all: injection H as <- <-; trace_norm.
  all: eexists; split; [reflexivity|].
  all: repeat split; try reflexivity; try discriminate.
  all: match goal with Hp : Ok _ = Ok _ |- _ => injection Hp as <- end.
  all: unfold packaging_events;
    try match goal with Hd : node_is_dir _ = _ |- _ => rewrite Hd end;
    try reflexivity.
  all: unfold archive_members, is_archive_itself, artifact_path, ARTIFACT.
  all: destruct (String.eqb _ _).
  all: rewrite ?lookup_insert_eq, !insert_insert_eq; reflexivity.
Qed.

Lemma session_writes_streaming name host path restart :
  session_writes (streaming_events e name host path restart)
  = remote_instructions (strftime_d_m_y (localtime e)) path name
                        (PyStr.drop_last 8 name) restart.
Proof. destruct restart; reflexivity. Qed.

Lemma ssh_processing_inv name host path restart st st' r :
  ssh_processing e name host path restart st = (st', r) ->
  fs st' = fs st
  /\ exists evs,
    trace st' = trace st ++ evs
    /\ call_attempts evs = [] /\ removals evs = []
    /\ session_attempts evs = [["ssh"; host]]
    /\ (session_opens evs = [] -> session_writes evs = [])
    /\ (session_opens evs <> [] ->
        (forall h d, fault e h (StdinWrite d) = None) ->
        session_writes evs
        = remote_instructions (strftime_d_m_y (localtime e)) path name
                              (PyStr.drop_last 8 name) restart)
    /\ (r = Ok tt ->
        evs = streaming_events e name host path restart
              ++ [Done StdinFlush; Done PopenExit]).
Proof.
  unfold ssh_processing. intros H. exec_in H.
  all: injection H as <- <-; trace_norm.
  all: split; [reflexivity|]; eexists; split; [reflexivity|].
  all: repeat split; try reflexivity; try discriminate.
  all: intros.
  all: try match goal with
           | Hf : fault e ?h (StdinWrite ?d) = Some _,
             Hw : forall h d, fault e h (StdinWrite d) = None |- _ =>
               rewrite Hw in Hf; discriminate Hf
           end.
  all: match goal with Hn : _ <> [] |- _ => now contradiction Hn end.
Qed.

End Stages.

Lemma handler_eq x st :
  handler x st
  = ({| fs := fs st; trace := trace st ++ handler_prints x |},
     handler_result x).
Proof.
  unfold handler, handler_prints, handler_result.
  destruct x as [[] msg], st as [files tr]; cbn; rewrite ?app_nil_r; reflexivity.
Qed.

Lemma artifact_file_name_main s :
  list_getitem
    (list_last_slice
       (PyStr.split "/" (artifact_path (PurePath.parse s)))) 0
  = Ok "compressed_file.tar.bz2".
Proof. apply PurePathFacts.artifact_file_name. Qed.

Ltac stage_inv :=
  repeat match goal with
    | Hc : compress_local_file _ _ _ = (_, _) |- _ =>
        apply compress_local_file_inv in Hc;
        destruct Hc as (? & ? & ? & ? & ? & ? & ?)
    | Hs : ssh_processing _ _ _ _ _ _ = (_, _) |- _ =>
        apply ssh_processing_inv in Hs;
        destruct Hs as (? & ? & ? & ? & ? & ? & ? & ? & ?)
    end.

Ltac leaf_inv :=
  repeat match goal with
    | Hp : forall p, Ok ?a = Ok p -> _ |- _ =>
        destruct (Hp _ eq_refl) as (-> & -> & ?); clear Hp
    | Hp : forall p, Raise _ = Ok p -> _ |- _ => clear Hp
    | Hn : list_getitem (list_last_slice (PyStr.split "/" _)) 0 = _ |- _ =>
        rewrite artifact_file_name_main in Hn;
        first [discriminate Hn | injection Hn as <-]
    | s : state |- _ => destruct s; cbn [trace fs] in *; subst
    | u : unit |- _ => destruct u
    | Hr : Ok tt = Ok tt -> _ = _ |- _ => specialize (Hr eq_refl)
    | Hr : Raise _ = Ok tt -> _ |- _ => clear Hr
    end.

Ltac run_cases H :=
  unfold run, main, deploy in H;
  exec_in H;
  rewrite ?handler_eq in H; cbn [trace fs app] in H;
  injection H as <- <-;
  stage_inv; leaf_inv; cbn [trace fs app] in *.

Lemma omap_handler_prints {A} (f : event -> option A) x :
  (forall a, f (Done (Print a)) = None) -> omap f (handler_prints x) = [].
Proof.
  intros Hf. unfold handler_prints. destruct (is_Exception x); [|reflexivity].
  cbn. now rewrite Hf.
Qed.


(** Computes the observations of a trace made of known events and of the
    events of a stage, for which the context holds facts. *)
Ltac observe :=
  unfold removals, session_writes, session_opens, session_attempts,
    call_attempts, call_completions, side_effects in *;
  repeat (progress (
    cbn [omap list_omap ev_op app];
    rewrite ?omap_app;
    rewrite ?omap_handler_prints by reflexivity;
    repeat match goal with
      | Hq : omap ?f ?evs = _ |- context [omap ?f ?evs] => rewrite Hq
      end)).

Lemma cons_suffix {A} (x : A) l b s : l = b ++ s -> x :: l = (x :: b) ++ s.
Proof. now intros ->. Qed.

Lemma app_suffix {A} (p l b s : list A) : l = b ++ s -> p ++ l = (p ++ b) ++ s.
Proof. intros ->. apply List.app_assoc. Qed.



Lemma removals_streaming e name host path restart :
  removals (streaming_events e name host path restart) = [].
Proof. destruct restart; reflexivity. Qed.

Lemma removals_packaging local_path is_dir :
  removals (packaging_events local_path is_dir) = [].
Proof. reflexivity. Qed.

Lemma session_writes_packaging local_path is_dir :
  session_writes (packaging_events local_path is_dir) = [].
Proof. reflexivity. Qed.

Lemma removals_app l1 l2 : removals (l1 ++ l2) = removals l1 ++ removals l2.
Proof. apply omap_app. Qed.

Lemma session_writes_app l1 l2 :
  session_writes (l1 ++ l2) = session_writes l1 ++ session_writes l2.
Proof. apply omap_app. Qed.

Lemma session_opens_none evs :
  session_attempts evs = [] -> session_opens evs = [].
Proof.
  unfold session_attempts, session_opens.
  induction evs as [|[[]|[]] evs IH]; cbn; try discriminate; auto.
Qed.

Lemma length_remote_instructions stamp path name entry restart :
  List.length (remote_instructions stamp path name entry restart)
  = if restart then 8 else 7.
Proof. destruct restart; reflexivity. Qed.

(** The facts on the events of a stage that [observe] rewrites with. *)
Ltac stage_facts :=
  repeat match goal with
    | Ha : session_attempts ?x = [] |- _ =>
        lazymatch goal with
        | _ : session_opens x = [] |- _ => fail
        | _ => pose proof (session_opens_none _ Ha)
        end
    end;
  try match goal with
    | |- context [packaging_events ?p ?d] =>
        pose proof (removals_packaging p d);
        pose proof (session_writes_packaging p d);
        pose proof (eq_refl : session_opens (packaging_events p d) = []);
        pose proof (eq_refl : session_attempts (packaging_events p d) = []);
        pose proof (eq_refl : call_attempts (packaging_events p d) = [])
    end;
  try match goal with
    | |- context [streaming_events ?e ?n ?h ?p ?b] =>
        pose proof (removals_streaming e n h p b);
        pose proof (session_writes_streaming e n h p b)
    end.

Lemma list_setitem_ok {A} (l : list A) i v :
  i < List.length l ->
  exists l', list_setitem l i v = Ok l' /\ List.length l' = List.length l.
Proof.
  intros Hi. unfold list_setitem.
  destruct (Nat.ltb_spec i (List.length l)); [|lia].
  eexists; split; [reflexivity|]. apply length_insert.
Qed.

Lemma is_attributes_valid_step_ok n validation attribute :
  3 <= List.length validation ->
  (n = OPTIONS_LIST_MAX -> List.length validation = 4) ->
  exists validation',
    is_attributes_valid_step n validation attribute = Ok validation'
    /\ List.length validation' = List.length validation.
Proof.
  intros H3 H4. unfold is_attributes_valid_step.
  assert (Hfirst : exists v1,
    (if PyStr.contains "local-path" attribute || PyStr.contains "l" attribute
     then list_setitem validation 0 true
     else if PyStr.contains "server" attribute || PyStr.contains "s" attribute
     then list_setitem validation 1 true
     else if PyStr.contains "server-path" attribute
             || PyStr.contains "d" attribute
     then list_setitem validation 2 true
     else Ok validation) = Ok v1 /\ List.length v1 = List.length validation).
  { repeat match goal with
      | |- context [if ?c then _ else _] => destruct c
      end; try (apply list_setitem_ok; lia).
    eexists; split; reflexivity. }
  destruct Hfirst as (v1 & -> & Hv1). cbn [rbind].
  destruct (Nat.eqb_spec n OPTIONS_LIST_MAX) as [Hn|Hn].
  - destruct (_ || _).
    + destruct (list_setitem_ok v1 3 true) as (v2 & -> & Hv2);
        [rewrite Hv1, (H4 Hn); lia|].
      eexists; split; [reflexivity|lia].
    + eexists; split; [reflexivity|lia].
  - eexists; split; [reflexivity|lia].
Qed.

Lemma foldM_step_ok n attributes validation :
  3 <= List.length validation ->
  (n = OPTIONS_LIST_MAX -> List.length validation = 4) ->
  exists validation',
    foldM (is_attributes_valid_step n) attributes validation = Ok validation'.
Proof.
  revert validation. induction attributes as [|a l IH]; intros v H3 H4.
  - eexists; reflexivity.
  - cbn [foldM].
    destruct (is_attributes_valid_step_ok n v a H3 H4) as (v' & -> & Hv').
    cbn [rbind]. apply IH; rewrite Hv'; assumption.
Qed.

(** With three or four attributes the validation never raises. *)
Lemma is_attributes_valid_total attributes :
  OPTIONS_LIST_MIN <= List.length attributes <= OPTIONS_LIST_MAX ->
  exists valid, is_attributes_valid attributes = Ok valid.
Proof.
  unfold OPTIONS_LIST_MIN, OPTIONS_LIST_MAX. intros Hlen.
  unfold is_attributes_valid.
  destruct (foldM_step_ok (List.length attributes) attributes
              (map (fun _ => false) attributes)) as (v & ->).
  - rewrite List.length_map. lia.
  - rewrite List.length_map. auto.
  - eexists; reflexivity.
Qed.

Lemma bind_ext {A B} (m1 m2 : M A) (k1 k2 : A -> M B) st :
  (forall st', m1 st' = m2 st') ->
  (forall a st', k1 a st' = k2 a st') ->
  bind m1 k1 st = bind m2 k2 st.
Proof.
  intros Hm Hk. unfold bind. rewrite Hm.
  destruct (m2 st) as [st' [a|x]]; [apply Hk|reflexivity].
Qed.

Lemma call_status_ignored {B} e status args (k1 k2 : M B) st :
  (forall st', k1 st' = k2 st') ->
  bind (call (with_call_status e status) args) (fun _ => k1) st
  = bind (call e args) (fun _ => k2) st.
Proof.
  intros Hk. unfold call, with_call_status. unfold bind, perform, ret. cbn.
  destruct (fault e (trace st) (Call args)); [reflexivity|apply Hk].
Qed.

Lemma deploy_call_status e status options_list st :
  deploy (with_call_status e status) options_list st
  = deploy e options_list st.
Proof.
  unfold deploy. cbv zeta.
  repeat first
    [ apply call_status_ignored; intros
    | apply bind_ext; [intros; reflexivity|intros] ].
  reflexivity.
Qed.

Lemma run_call_status e status files argv :
  run (with_call_status e status) files argv = run e files argv.
Proof.
  unfold run, main.
  apply bind_ext; [reflexivity|intros _ st].
  unfold try_except.
  assert (Hbody : forall st', 
    (print_message "Retreiving attributes..." MSG_RESET >>
     let! (options_list, _) := lift (Getopt.getopt (drop 1 argv) SHORTOPTS LONGOPTS) in
     deploy (with_call_status e status) options_list) st'
    = (print_message "Retreiving attributes..." MSG_RESET >>
     let! (options_list, _) := lift (Getopt.getopt (drop 1 argv) SHORTOPTS LONGOPTS) in
     deploy e options_list) st').
  { intros st'. apply bind_ext; [reflexivity|intros _ st2].
    apply bind_ext; [reflexivity|intros [o l] st3]. apply deploy_call_status. }
  rewrite Hbody. reflexivity.
Qed.

Lemma call_completions_none evs :
  call_attempts evs = [] -> call_completions evs = [].
Proof.
  unfold call_attempts, call_completions.
  induction evs as [|[[]|[]] evs IH]; cbn; try discriminate; auto.
Qed.

(** C1: for every run that reaches the remote session, and in which no write
    to the session raises, the data written to the session's input stream are
    exactly the instructions of the protocol, in order: [cd] to the server
    path, the archive of [backend/] named after the current date formatted
    [DD_MM_YY], its move to [archive], the removal of [backend], the
    extraction of [compressed_file.tar.bz2], its removal, the renaming of
    [compressed_file] to [backend], each ended by a line break, and
    [systemctl restart httpd] if and only if the restart flag the driver
    receives (the presence of [--restart-apache]) is set: 7 instructions
    without it, 8 with it. *)
Theorem remote_instruction_sequence e files argv st r :
  run e files argv = (st, r) ->
  (forall h d, fault e h (StdinWrite d) = None) ->
  session_opens (trace st) <> [] ->
  exists options_list arguments server_path,
    Getopt.getopt (drop 1 argv) SHORTOPTS LONGOPTS
    = Ok (options_list, arguments)
    /\ (if dict_contains (dict_of_options options_list) "--server-path"
        then dict_getitem (dict_of_options options_list) "--server-path"
        else dict_getitem (dict_of_options options_list) "-d")
       = Ok server_path
    /\ let restart :=
         dict_contains (dict_of_options options_list) "--restart-apache" in
       session_writes (trace st)
       = remote_instructions (strftime_d_m_y (localtime e)) server_path
           "compressed_file.tar.bz2" "compressed_file" restart
       /\ List.length (session_writes (trace st)) = if restart then 8 else 7.
Proof.
  intros H Hw. run_cases H.
  all: stage_facts.
  all: observe; rewrite ?app_nil_r.
  all: intros Hopen; try (now contradiction Hopen).
  all: match goal with
       | Hs : ?o <> [] -> _ -> ?w = _ |- _ => specialize (Hs Hopen Hw)
       end.
  all: eexists _, _, _;
    split; [first [eassumption|reflexivity]|];
    split; [first [eassumption|reflexivity]|].
  all: cbv zeta; observe; rewrite ?app_nil_r.
  all: try match goal with Hs : ?w = remote_instructions _ _ _ _ _ |- _ =>
             rewrite Hs end.
  all: change (PyStr.drop_last 8 "compressed_file.tar.bz2")
         with "compressed_file".
  all: split; [reflexivity|apply length_remote_instructions].
Qed.
Lemma count_in_range (n : nat) :
  Nat.ltb n OPTIONS_LIST_MIN || Nat.ltb OPTIONS_LIST_MAX n = false ->
  OPTIONS_LIST_MIN <= n <= OPTIONS_LIST_MAX.
Proof.
  intros H. apply orb_false_iff in H as [H1 H2].
  apply Nat.ltb_ge in H1, H2. lia.
Qed.

(** C5: when the local source path does not exist the run has no side
    effect: the file system is unchanged and the trace holds only messages
    and the query on the path (no artifact, no remote copy, no session).  The
    outcome is the report of a request-validation error: [ExitCodes.IO_ERROR]
    with the message on the missing path when the options pass the
    validation of the attributes, [ExitCodes.ATTRIBUTE_ERROR] when they do
    not. *)
Theorem missing_local_path_aborts e files argv st r options_list arguments
    local_path_arg :
  run e files argv = (st, r) ->
  Getopt.getopt (drop 1 argv) SHORTOPTS LONGOPTS
  = Ok (options_list, arguments) ->
  (if dict_contains (dict_of_options options_list) "--local-path"
   then dict_getitem (dict_of_options options_list) "--local-path"
   else dict_getitem (dict_of_options options_list) "-l")
  = Ok local_path_arg ->
  (forall h, fault e h (Stat (PurePath.str (PurePath.parse local_path_arg)))
             = None) ->
  files !! PurePath.str (PurePath.parse local_path_arg) = None ->
  fs st = files
  /\ side_effects (trace st) = []
  /\ (r = Ok ExitCodes.IO_ERROR \/ r = Ok ExitCodes.ATTRIBUTE_ERROR)
  /\ (r = Ok ExitCodes.IO_ERROR ->
      List.last (trace st) (Done (Print []))
      = Done (Print [ERROR_COLORS;
                     "The path to the local file doesn't exits."]))
  /\ (OPTIONS_LIST_MIN <= List.length options_list <= OPTIONS_LIST_MAX ->
      is_attributes_valid (map fst options_list) = Ok true ->
      r = Ok ExitCodes.IO_ERROR).
Proof.
  intros H. run_cases H.
  all: intros Hg Hl Hs Hn; try discriminate Hg; try discriminate Hl.
  all: injection Hg as ? ?; subst.
  all: try match goal with
         | Ha : ?X = Raise _ |- _ =>
             lazymatch type of Hl with
             | X = Ok _ => rewrite Ha in Hl; discriminate Hl
             end
         end.
  all: try match goal with
         | Ha : ?X = Ok ?a |- _ =>
             lazymatch type of Hl with
             | X = Ok ?b => tryif constr_eq a b then fail else rewrite Ha in Hl
             end
         end.
  all: try discriminate Hl.
  all: try (injection Hl as ?; subst).
  all: try match goal with
         | Hf : fault _ _ (Stat _) = Some _ |- _ =>
             rewrite Hs in Hf; discriminate Hf
         end.
  all: try match goal with
         | Hx : negb (node_exists (_ !! _)) = false |- _ =>
             rewrite Hn in Hx; discriminate Hx
         end.
  all: try match goal with
         | Hc : _ || _ = false, Hv : is_attributes_valid ?l = Raise _ |- _ =>
             apply count_in_range in Hc;
             destruct (is_attributes_valid_total l) as [? Hv'];
             [rewrite List.length_map; exact Hc|congruence]
         end.
  all: cbn [handler_prints handler_result is_IOError is_AttributeError
             is_Exception exn_class_eqb exn_cls exn_msg negb].
  all: repeat split; try reflexivity; auto; try discriminate.
  all: intros Hb Hv.
  - exfalso. unfold OPTIONS_LIST_MIN, OPTIONS_LIST_MAX in *.
    apply orb_true_iff in Heqb. rewrite !Nat.ltb_lt in Heqb. lia.
  - rewrite Hv in Heqr1. injection Heqr1 as <-. discriminate Heqb0.
Qed.
Module PurePathRoundTrip.
Import PurePath PyStr PyStrFacts PurePathFacts.












End PurePathRoundTrip.


(** ** Concrete runs *)

(** C2 (the code diverges): with the three mandatory parameters in their long
    spellings, [__is_attributes_valid] returns [False], because
    ["--server-path"] contains ["server"] and is taken for the server by the
    [elif] chain; [main] reports the missing attribute and returns
    [ExitCodes.ATTRIBUTE_ERROR], whatever the values of the parameters. *)
Theorem long_spellings_fail_validation :
  is_attributes_valid ["--local-path"; "--server"; "--server-path"] = Ok false
  /\ forall e files local_path server server_path,
       let out := run e files ["easymep.py"; "--local-path"; local_path;
                               "--server"; server;
                               "--server-path"; server_path] in
       out.2 = Ok ExitCodes.ATTRIBUTE_ERROR
       /\ List.last (trace out.1) (Done (Print []))
          = Done (Print [ERROR_COLORS;
                         "Missing one or many attributes in the call."]).
Proof. split; [reflexivity|]. intros. split; reflexivity. Qed.

(** C3 (the code diverges): with [-a] the run succeeds and writes the seven
    instructions without [systemctl restart httpd]: [main] looks for the key
    ["--restart-apache"] only.  The same run with [--restart-apache] writes
    the eight instructions. *)
Theorem short_restart_flag_does_not_restart :
  let short := run demo_env demo_files
                 ["easymep.py"; "-l"; "/home/u/site"; "-s"; "example.org";
                  "-d"; "/srv/www"; "-a"] in
  let long := run demo_env demo_files
                ["easymep.py"; "-l"; "/home/u/site"; "-s"; "example.org";
                 "-d"; "/srv/www"; "--restart-apache"] in
  short.2 = Ok ExitCodes.SUCCESS
  /\ session_writes (trace short.1)
     = remote_instructions "19_04_14" "/srv/www" "compressed_file.tar.bz2"
         "compressed_file" false
  /\ List.length (session_writes (trace short.1)) = 7
  /\ session_writes (trace long.1)
     = remote_instructions "19_04_14" "/srv/www" "compressed_file.tar.bz2"
         "compressed_file" true.
Proof. vm_compute. repeat split; reflexivity. Qed.

Lemma handler_result_not_general x :
  returns ExitCodes.GENERAL (handler_result x) = false.
Proof.
  unfold handler_result.
  destruct (is_IOError x), (is_AttributeError x), (is_Exception x);
    reflexivity.
Qed.

(** [main] never returns [ExitCodes.GENERAL]. *)
Lemma main_never_returns_GENERAL e files argv :
  returns ExitCodes.GENERAL (run e files argv).2 = false.
Proof.
  destruct (run e files argv) as [st r] eqn:H. run_cases H.
  all: cbn [snd]; first [apply handler_result_not_general | reflexivity].
Qed.

(** C4 (the code diverges): an unknown option makes [getopt] raise
    [GetoptError], which is neither an [IOError] nor an [AttributeError]; the
    third [except] clause then raises [TypeError] on [ERROR_COLORS + ex], so
    [main] does not return [ExitCodes.GENERAL]: the [TypeError] escapes. *)
Theorem unclassified_failure_escapes_main :
  let out := run demo_env demo_files ["easymep.py"; "-x"] in
  Getopt.getopt ["-x"] SHORTOPTS LONGOPTS
  = Raise (mk_exn GetoptError "option -x not recognized")
  /\ out.2 = Raise TYPE_ERROR
  /\ returns ExitCodes.GENERAL out.2 = false.
Proof. vm_compute. repeat split; reflexivity. Qed.

(** C6 (the code diverges): with [-l], [-d] and [--restart-apache] the
    server is missing, yet the validation succeeds (["--restart-apache"]
    contains ["s"]); the artifact is created before the lookup of the server
    raises [KeyError], and [main] raises [TypeError] instead of returning
    [ExitCodes.ATTRIBUTE_ERROR]. *)
Theorem missing_server_not_rejected :
  let out := run demo_env demo_files
               ["easymep.py"; "-l"; "/home/u/site"; "-d"; "/srv/www";
                "--restart-apache"] in
  is_attributes_valid ["-l"; "-d"; "--restart-apache"] = Ok true
  /\ out.2 = Raise TYPE_ERROR
  /\ returns ExitCodes.ATTRIBUTE_ERROR out.2 = false
  /\ fs out.1 !! "/home/u/compressed_file.tar.bz2"
     = Some (TarArchive [("compressed_file", "/home/u/site")])
  /\ demo_files !! "/home/u/compressed_file.tar.bz2" = None.
Proof. vm_compute. repeat split; reflexivity. Qed.

(** C10 (the code diverges): four options without the restart flag are
    accepted when one of them is [--local-path], which contains ["a"]: the
    validation returns [True] and the run succeeds with seven
    instructions. *)
Theorem four_options_without_restart_flag_accepted :
  let out := run demo_env demo_files
               ["easymep.py"; "--local-path"; "/home/u/site"; "-s";
                "example.org"; "-d"; "/srv/www"; "-u"; "deploy"] in
  is_attributes_valid ["--local-path"; "-s"; "-d"; "-u"] = Ok true
  /\ out.2 = Ok ExitCodes.SUCCESS
  /\ List.length (session_writes (trace out.1)) = 7.
Proof. vm_compute. repeat split; reflexivity. Qed.

(** X8: when [getopt] returns fewer than three or more than four options,
    [main] returns [ExitCodes.ATTRIBUTE_ERROR] before anything is touched:
    the file system is unchanged and the trace holds messages only, not even
    a query on a path. *)
Lemma wrong_option_count_rejected e files argv options_list arguments :
  Getopt.getopt (drop 1 argv) SHORTOPTS LONGOPTS
  = Ok (options_list, arguments) ->
  List.length options_list < OPTIONS_LIST_MIN
  \/ OPTIONS_LIST_MAX < List.length options_list ->
  let out := run e files argv in
  out.2 = Ok ExitCodes.ATTRIBUTE_ERROR
  /\ fs out.1 = files
  /\ side_effects (trace out.1) = []
  /\ List.filter (fun ev => match ev_op ev with Stat _ => true | _ => false end)
       (trace out.1) = [].
Proof.
  intros Hg Hn. unfold run, main, deploy.
  cbv beta iota zeta delta
    [bind print ret raise lift try_except log print_message trace fs].
  rewrite Hg. cbv beta iota.
  assert (Hc : Nat.ltb (List.length options_list) OPTIONS_LIST_MIN
               || Nat.ltb OPTIONS_LIST_MAX (List.length options_list) = true).
  { apply orb_true_iff. rewrite !Nat.ltb_lt. exact Hn. }
  rewrite Hc. cbv beta iota. rewrite handler_eq. repeat split.
Qed.

(** ** Witnesses *)

Lemma remote_instruction_sequence_witness :
  run demo_env demo_files demo_restart_argv = (demo_out.1, demo_out.2)
  /\ (forall h d, fault demo_env h (StdinWrite d) = None)
  /\ session_opens (trace demo_out.1) <> []
  /\ exists options_list arguments server_path,
       Getopt.getopt (drop 1 demo_restart_argv) SHORTOPTS LONGOPTS
       = Ok (options_list, arguments)
       /\ (if dict_contains (dict_of_options options_list) "--server-path"
           then dict_getitem (dict_of_options options_list) "--server-path"
           else dict_getitem (dict_of_options options_list) "-d")
          = Ok server_path
       /\ let restart :=
            dict_contains (dict_of_options options_list) "--restart-apache" in
          session_writes (trace demo_out.1)
          = remote_instructions (strftime_d_m_y (localtime demo_env))
              server_path "compressed_file.tar.bz2" "compressed_file" restart
          /\ List.length (session_writes (trace demo_out.1))
             = if restart then 8 else 7.
Proof.
  assert (H : run demo_env demo_files demo_restart_argv
              = (demo_out.1, demo_out.2)) by apply surjective_pairing.
  assert (Hw : forall h d, fault demo_env h (StdinWrite d) = None)
    by reflexivity.
  assert (Ho : session_opens (trace demo_out.1) <> [])
    by (vm_compute; discriminate).
  split; [exact H|]. split; [exact Hw|]. split; [exact Ho|].
  exact (remote_instruction_sequence demo_env demo_files demo_restart_argv
           demo_out.1 demo_out.2 H Hw Ho).
Defined.

Lemma missing_local_path_aborts_witness :
  run demo_env demo_files demo_missing_argv
  = (demo_missing_out.1, demo_missing_out.2)
  /\ Getopt.getopt (drop 1 demo_missing_argv) SHORTOPTS LONGOPTS
     = Ok ([("-l", "/nonexistent"); ("-s", "example.org"); ("-d", "/srv/www")],
           [])
  /\ demo_files !! PurePath.str (PurePath.parse "/nonexistent") = None
  /\ fs demo_missing_out.1 = demo_files
  /\ side_effects (trace demo_missing_out.1) = []
  /\ demo_missing_out.2 = Ok ExitCodes.IO_ERROR.
Proof.
  assert (H : run demo_env demo_files demo_missing_argv
              = (demo_missing_out.1, demo_missing_out.2))
    by apply surjective_pairing.
  assert (Hg : Getopt.getopt (drop 1 demo_missing_argv) SHORTOPTS LONGOPTS
               = Ok ([("-l", "/nonexistent"); ("-s", "example.org");
                      ("-d", "/srv/www")], [])) by reflexivity.
  assert (Hn : demo_files !! PurePath.str (PurePath.parse "/nonexistent")
               = None) by reflexivity.
  destruct (missing_local_path_aborts demo_env demo_files demo_missing_argv
              demo_missing_out.1 demo_missing_out.2 _ _ "/nonexistent" H Hg)
    as (Hfs & Hse & _ & _ & Hio);
    [reflexivity|reflexivity|exact Hn|].
  split; [exact H|]. split; [exact Hg|]. split; [exact Hn|].
  split; [exact Hfs|]. split; [exact Hse|].
  apply Hio; [vm_compute; lia|reflexivity].
Defined.



(** * Further properties of the code *)

(** ** [__is_attributes_valid] *)

Lemma lookup_setitem {A} (l l' : list A) j v i :
  list_setitem l j v = Ok l' ->
  l' !! i = if Nat.eqb i j then (fun _ => v) <$> l !! i else l !! i.
Proof.
  unfold list_setitem. destruct (Nat.ltb_spec j (List.length l)) as [Hj|Hj];
    [|discriminate].
  intros [= <-]. destruct (Nat.eqb_spec i j) as [->|Hij].
  - rewrite list_lookup_insert_eq by exact Hj.
    destruct (lookup_lt_is_Some_2 l j Hj) as [x ->]. reflexivity.
  - apply list_lookup_insert_ne. congruence.
Qed.

Lemma is_attributes_valid_step_lookup n validation attribute :
  3 <= n -> List.length validation = n ->
  exists validation',
    is_attributes_valid_step n validation attribute = Ok validation'
    /\ List.length validation' = n
    /\ forall i, validation' !! i
                 = (fun b => b || sets_slot n attribute i) <$> validation !! i.
Proof.
  intros Hn Hlen. unfold is_attributes_valid_step, sets_slot, attribute_slot,
    restart_test.
  set (c0 := PyStr.contains "local-path" attribute || PyStr.contains "l" attribute).
  set (c1 := PyStr.contains "server" attribute || PyStr.contains "s" attribute).
  set (c2 := PyStr.contains "server-path" attribute || PyStr.contains "d" attribute).
  set (c3 := PyStr.contains "restart-apache" attribute || PyStr.contains "a" attribute).
  assert (Hset : forall (v : list bool) j, List.length v = n -> j < n ->
            exists v', list_setitem v j true = Ok v' /\ List.length v' = n
              /\ forall i, v' !! i = (fun b => b || Nat.eqb i j) <$> v !! i).
  { intros v j Hv Hj. destruct (list_setitem_ok v j true) as (v' & Hv' & Hl);
      [lia|]. exists v'. split; [exact Hv'|]. split; [lia|].
    intros i. rewrite (lookup_setitem _ _ _ _ _ Hv').
    destruct (Nat.eqb i j); destruct (v !! i) as [[]|]; reflexivity. }
  assert (Hkeep : forall v : list bool, List.length v = n ->
            exists v', Ok v = Ok v' /\ List.length v' = n
              /\ forall i, v' !! i = (fun b => b || false) <$> v !! i).
  { intros v Hv. exists v. split; [reflexivity|]. split; [exact Hv|].
    intros i. destruct (v !! i) as [[]|]; reflexivity. }
  assert (Hfirst : exists v1,
    (if c0 then list_setitem validation 0 true
     else if c1 then list_setitem validation 1 true
     else if c2 then list_setitem validation 2 true
     else Ok validation) = Ok v1 /\ List.length v1 = n
    /\ forall i, v1 !! i
         = (fun b => b || match (if c0 then Some 0 else if c1 then Some 1
                                 else if c2 then Some 2 else None) with
                          | Some j => Nat.eqb i j
                          | None => false
                          end) <$> validation !! i).
  { destruct c0; [apply Hset; lia|]. destruct c1; [apply Hset; lia|].
    destruct c2; [apply Hset; lia|]. apply Hkeep; exact Hlen. }
  destruct Hfirst as (v1 & -> & Hv1 & Hl1). cbn [rbind].
  assert (Hsecond : exists v2,
    (if Nat.eqb n OPTIONS_LIST_MAX
     then if c3 then list_setitem v1 3 true else Ok v1
     else Ok v1) = Ok v2 /\ List.length v2 = n
    /\ forall i, v2 !! i
         = (fun b => b || (Nat.eqb i 3 && Nat.eqb n OPTIONS_LIST_MAX && c3))
             <$> v1 !! i).
  { destruct (Nat.eqb_spec n OPTIONS_LIST_MAX) as [Hmax|Hmax].
    - destruct c3.
      + destruct (Hset v1 3 Hv1) as (v2 & Hv2 & Hlen2 & Hl2);
          [unfold OPTIONS_LIST_MAX in Hmax; lia|].
        exists v2. split; [exact Hv2|]. split; [exact Hlen2|].
        intros i. rewrite Hl2. destruct (v1 !! i) as [b|]; [|reflexivity].
        cbn. now rewrite !andb_true_r.
      + destruct (Hkeep v1 Hv1) as (v2 & Hv2 & Hlen2 & Hl2).
        exists v2. split; [exact Hv2|]. split; [exact Hlen2|].
        intros i. rewrite Hl2. destruct (v1 !! i) as [b|]; [|reflexivity].
        cbn. now rewrite !andb_false_r.
    - destruct (Hkeep v1 Hv1) as (v2 & Hv2 & Hlen2 & Hl2).
      exists v2. split; [exact Hv2|]. split; [exact Hlen2|].
      intros i. rewrite Hl2. destruct (v1 !! i) as [b|]; [|reflexivity].
      cbn. now rewrite andb_false_r. }
  destruct Hsecond as (v2 & -> & Hv2 & Hl2).
  exists v2. split; [reflexivity|]. split; [exact Hv2|].
  intros i. rewrite Hl2, Hl1. destruct (validation !! i) as [b|]; [|reflexivity].
  cbn. now rewrite orb_assoc.
Qed.

Lemma foldM_step_lookup n attributes validation :
  3 <= n -> List.length validation = n ->
  exists validation',
    foldM (is_attributes_valid_step n) attributes validation = Ok validation'
    /\ List.length validation' = n
    /\ forall i, validation' !! i
         = (fun b => b || existsb (fun a => sets_slot n a i) attributes)
             <$> validation !! i.
Proof.
  intros Hn. revert validation.
  induction attributes as [|a l IH]; intros v Hv.
  - exists v. split; [reflexivity|]. split; [exact Hv|].
    intros i. destruct (v !! i) as [[]|]; reflexivity.
  - cbn [foldM].
    destruct (is_attributes_valid_step_lookup n v a Hn Hv)
      as (v1 & -> & Hv1 & Hl1).
    cbn [rbind]. destruct (IH v1 Hv1) as (v2 & Hf & Hv2 & Hl2).
    exists v2. split; [exact Hf|]. split; [exact Hv2|].
    intros i. rewrite Hl2, Hl1. destruct (v !! i) as [b|]; [|reflexivity].
    cbn. now rewrite orb_assoc.
Qed.

Lemma forallb_lookup (v : list bool) (g : nat -> bool) :
  (forall i, i < List.length v -> v !! i = Some (g i)) ->
  forallb (fun b => b) v = forallb g (seq 0 (List.length v)).
Proof.
  intros H.
  assert (Hv : v = map g (seq 0 (List.length v))).
  { apply list_eq. intros i. rewrite list_lookup_fmap.
    destruct (Nat.lt_ge_cases i (List.length v)) as [Hi|Hi].
    - rewrite (H i Hi), lookup_seq_lt by exact Hi. reflexivity.
    - rewrite lookup_ge_None_2 by exact Hi.
      rewrite lookup_seq_ge by exact Hi. reflexivity. }
  rewrite Hv at 1. generalize (seq 0 (List.length v)) as l.
  induction l as [|x l IH]; [reflexivity|]. cbn. now rewrite IH.
Qed.

(** With three attributes or more, the loop of [__is_attributes_valid] sets
    exactly the slots that [sets_slot] names. *)
Lemma is_attributes_valid_all_slots attributes :
  OPTIONS_LIST_MIN <= List.length attributes ->
  is_attributes_valid attributes = Ok (all_slots_set attributes).
Proof.
  unfold OPTIONS_LIST_MIN. intros Hn. unfold is_attributes_valid, all_slots_set.
  destruct (foldM_step_lookup (List.length attributes) attributes
              (map (fun _ => false) attributes) Hn)
    as (v & -> & Hv & Hl); [apply List.length_map|].
  cbn [rbind]. f_equal.
  rewrite (forallb_lookup v
             (fun i => existsb (fun a => sets_slot (List.length attributes) a i)
                               attributes)).
  - now rewrite Hv.
  - intros i Hi. rewrite Hl, list_lookup_fmap.
    destruct (lookup_lt_is_Some_2 attributes i) as [a ->]; [lia|]. reflexivity.
Qed.

(** X1: with three attributes or more, [__is_attributes_valid] never raises,
    and it returns [True] exactly when every slot of [validation] (one per
    attribute given) is set by some attribute: slot 0 by one that contains
    ["local-path"] or ["l"], slot 1 by one that does not and contains
    ["server"] or ["s"], slot 2 by one that contains neither and contains
    ["server-path"] or ["d"], slot 3 by one that contains ["restart-apache"]
    or ["a"] when four attributes are given. *)
Theorem is_attributes_valid_iff attributes :
  OPTIONS_LIST_MIN <= List.length attributes ->
  (exists valid, is_attributes_valid attributes = Ok valid)
  /\ (is_attributes_valid attributes = Ok true <->
      forall i, i < List.length attributes ->
        exists a, In a attributes
                  /\ sets_slot (List.length attributes) a i = true).
Proof.
  intros Hn. rewrite is_attributes_valid_all_slots by exact Hn.
  split; [eauto|]. unfold all_slots_set. split.
  - intros [= Hv] i Hi. rewrite List.forallb_forall in Hv.
    apply List.existsb_exists, Hv, List.in_seq. lia.
  - intros H. f_equal. apply List.forallb_forall. intros i Hi.
    apply List.in_seq in Hi. apply List.existsb_exists, H. lia.
Qed.

Lemma existsb_Permutation {A} (f : A -> bool) l l' :
  Permutation l l' -> existsb f l = existsb f l'.
Proof.
  induction 1 as [|x l l' _ IH|x y l|l l' l'' _ IH1 _ IH2]; cbn.
  - reflexivity.
  - now rewrite IH.
  - now rewrite !orb_assoc, (orb_comm (f y)).
  - now rewrite IH1.
Qed.

(** X2: with three attributes or more, the result of
    [__is_attributes_valid] does not depend on the order of the
    attributes. *)
Theorem validation_order_independent attributes attributes' :
  OPTIONS_LIST_MIN <= List.length attributes ->
  Permutation attributes attributes' ->
  is_attributes_valid attributes' = is_attributes_valid attributes.
Proof.
  intros Hn Hp. pose proof (Permutation_length Hp) as Hlen.
  rewrite !is_attributes_valid_all_slots by lia.
  f_equal. unfold all_slots_set. rewrite <- Hlen.
  induction (seq 0 (List.length attributes)) as [|i l IH]; [reflexivity|].
  cbn [forallb]. rewrite IH. f_equal. symmetry. now apply existsb_Permutation.
Qed.

(** X3: with more than four attributes [__is_attributes_valid] returns
    [False]: [validation] has a slot per attribute and the loop sets the
    slots 0 to 3 only. *)
Theorem more_than_four_never_valid attributes :
  OPTIONS_LIST_MAX < List.length attributes ->
  is_attributes_valid attributes = Ok false.
Proof.
  unfold OPTIONS_LIST_MAX. intros Hn.
  rewrite is_attributes_valid_all_slots by (unfold OPTIONS_LIST_MIN; lia).
  f_equal. unfold all_slots_set.
  destruct (forallb _ _) eqn:Hv; [|reflexivity].
  rewrite List.forallb_forall in Hv. specialize (Hv 4).
  rewrite List.in_seq in Hv.
  apply List.existsb_exists in Hv as (a & _ & Ha); [|lia].
  unfold sets_slot, attribute_slot in Ha.
  repeat match type of Ha with
    | context [if ?c then _ else _] => destruct c
    end; discriminate Ha.
Qed.

Lemma is_attributes_valid_step_short n validation attribute :
  n < OPTIONS_LIST_MIN -> List.length validation = n ->
  (exists validation',
     is_attributes_valid_step n validation attribute = Ok validation'
     /\ List.length validation' = n
     /\ forall j, attribute_slot attribute = Some j -> j < n)
  \/ (exists x,
        is_attributes_valid_step n validation attribute = Raise x
        /\ exn_cls x = IndexError).
Proof.
  unfold OPTIONS_LIST_MIN. intros Hn Hlen.
  unfold is_attributes_valid_step, attribute_slot.
  destruct (Nat.eqb_spec n OPTIONS_LIST_MAX) as [Hm|_];
    [unfold OPTIONS_LIST_MAX in Hm; lia|].
  assert (Hset : forall j,
    (exists v', list_setitem validation j true = Ok v'
                /\ List.length v' = n /\ j < n)
    \/ (exists x, list_setitem validation j true = Raise x
                  /\ exn_cls x = IndexError)).
  { intros j. unfold list_setitem.
    destruct (Nat.ltb_spec j (List.length validation)).
    - left. eexists. split; [reflexivity|].
      rewrite length_insert. split; [exact Hlen|lia].
    - right. eexists. split; reflexivity. }
  repeat match goal with
    | |- context [if ?c then _ else _] => destruct c
    end.
  1-3: match goal with
     | |- context [list_setitem _ ?j true] =>
         destruct (Hset j) as [(v' & -> & Hv' & Hj)|(x & -> & Hx)];
           [left; exists v'; cbn; split; [reflexivity|]; split; [exact Hv'|];
            now intros ? [= <-]
           |right; exists x; cbn; split; [reflexivity|exact Hx]]
     end.
  left. exists validation. cbn. split; [reflexivity|]. split; [exact Hlen|].
  discriminate.
Qed.

(** X4: with fewer than three attributes, [__is_attributes_valid] raises
    [IndexError] as soon as one attribute selects a slot that [validation]
    does not have (for instance ["-d"] alone, which selects slot 2). *)
Theorem short_list_index_error attributes attribute j :
  List.length attributes < OPTIONS_LIST_MIN ->
  In attribute attributes ->
  attribute_slot attribute = Some j ->
  List.length attributes <= j ->
  exists x,
    is_attributes_valid attributes = Raise x /\ exn_cls x = IndexError.
Proof.
  intros Hn Hin Hj Hle. unfold is_attributes_valid.
  set (n := List.length attributes) in *.
  assert (Hfold : forall l validation,
    List.length validation = n -> In attribute l ->
    exists x, foldM (is_attributes_valid_step n) l validation = Raise x
              /\ exn_cls x = IndexError).
  { induction l as [|a l IH]; intros v Hv Hl; [contradiction Hl|].
    cbn [foldM].
    destruct (is_attributes_valid_step_short n v a Hn Hv)
      as [(v' & -> & Hv' & Hslot)|(x & -> & Hx)]; cbn [rbind]; [|eauto].
    destruct Hl as [->|Hl]; [|now apply IH].
    specialize (Hslot j Hj). lia. }
  destruct (Hfold attributes (map (fun _ => false) attributes))
    as (x & -> & Hx); [apply List.length_map|exact Hin|].
  cbn. eauto.
Qed.

(** ** The options of [main] *)

Lemma dict_of_options_snoc l k v :
  dict_of_options (l ++ [(k, v)]) = <[k := v]> (dict_of_options l).
Proof. unfold dict_of_options. now rewrite foldl_app. Qed.

Lemma dict_lookup_None l k :
  dict_of_options l !! k = None <-> ~ In k (map fst l).
Proof.
  induction l as [|[k' v'] l IH] using rev_ind.
  - cbn. split; [tauto|reflexivity].
  - rewrite dict_of_options_snoc, List.map_app, List.in_app_iff. cbn.
    destruct (String.eqb_spec k' k) as [->|Hk].
    + rewrite lookup_insert_eq. split; [discriminate|tauto].
    + rewrite lookup_insert_ne by exact Hk. rewrite IH. tauto.
Qed.

Lemma dict_lookup_last l1 k v l2 :
  ~ In k (map fst l2) ->
  dict_of_options (l1 ++ (k, v) :: l2) !! k = Some v.
Proof.
  induction l2 as [|[k' v'] l2 IH] using rev_ind; intros Hk.
  - rewrite dict_of_options_snoc. apply lookup_insert_eq.
  - rewrite List.map_app, List.in_app_iff in Hk. cbn in Hk.
    change (l1 ++ (k, v) :: l2 ++ [(k', v')])
      with (l1 ++ ((k, v) :: l2) ++ [(k', v')]).
    rewrite List.app_assoc, dict_of_options_snoc.
    rewrite lookup_insert_ne by tauto. apply IH. tauto.
Qed.

Lemma dict_contains_In l k :
  dict_contains (dict_of_options l) k = true <-> In k (map fst l).
Proof.
  unfold dict_contains. pose proof (dict_lookup_None l k) as H.
  destruct (dict_of_options l !! k).
  - split; [intros _|reflexivity].
    destruct (List.in_dec String.string_dec k (map fst l)) as [Hi|Hi];
      [exact Hi|]. apply H in Hi. discriminate Hi.
  - split; [discriminate|]. intros Hi. now apply H in Hi.
Qed.

(** X5: in the dictionary comprehension of [main] the last pair of a key
    wins: when [key] does not occur after the pair [(key, value)], the key is
    in the dictionary and its lookup gives [value]; and the keys of the
    dictionary are the keys of the pairs. *)
Theorem dict_of_options_last_wins before key value after :
  ~ In key (map fst after) ->
  let d := dict_of_options (before ++ (key, value) :: after) in
  dict_contains d key = true
  /\ dict_getitem d key = Ok value
  /\ forall k, dict_contains d k = true
               <-> In k (map fst (before ++ (key, value) :: after)).
Proof.
  intros Hk d. split; [|split].
  - apply dict_contains_In. rewrite List.map_app, List.in_app_iff. cbn. tauto.
  - unfold dict_getitem, d. now rewrite dict_lookup_last.
  - intros k. apply dict_contains_In.
Qed.

(** [(stem + suffix)[:-len(suffix)]] is [stem]. *)
Lemma drop_last_app stem suffix :
  PyStr.drop_last (String.length suffix) (stem ++ suffix) = stem.
Proof.
  unfold PyStr.drop_last. rewrite PyStrFacts.length_app.
  replace (String.length stem + String.length suffix - String.length suffix)
    with (String.length stem) by lia.
  induction stem as [|a stem IH].
  - change ("" ++ suffix)%string with suffix. cbn. now destruct suffix.
  - rewrite PyStrFacts.app_cons. cbn. now rewrite IH.
Qed.

Module GetoptFacts.
Import Getopt PyStr PyStrFacts.

Lemma short_has_arg_key c b :
  short_has_arg c SHORTOPTS = Ok b -> In ("-" ++ String c "")%string OPTION_KEYS.
Proof.
  unfold SHORTOPTS. cbn [short_has_arg].
  repeat match goal with
    | |- context [Ascii.eqb c ?x] =>
        destruct (Ascii.eqb_spec c x) as [->|?]
    end; cbn; intros H; try discriminate H; vm_compute; tauto.
Qed.

Lemma do_shorts_keys optstring : forall opts args opts' args',
  Forall (fun o => In (fst o) OPTION_KEYS) opts ->
  do_shorts opts optstring SHORTOPTS args = Ok (opts', args') ->
  Forall (fun o => In (fst o) OPTION_KEYS) opts'.
Proof.
  induction optstring as [|c s IH]; intros opts args opts' args' Ho H.
  - injection H as <- <-. exact Ho.
  - cbn [do_shorts] in H.
    destruct (short_has_arg c SHORTOPTS) as [b|x] eqn:Hc; [|discriminate H].
    apply short_has_arg_key in Hc. cbn [rbind] in H.
    assert (Hsnoc : forall v,
      Forall (fun o => In (fst o) OPTION_KEYS)
             (opts ++ [(("-" ++ String c "")%string, v)])).
    { intros v. apply Forall_app. split; [exact Ho|].
      apply List.Forall_cons; [exact Hc|constructor]. }
    destruct b.
    + destruct (String.eqb s "").
      * destruct args as [|a args]; [discriminate H|].
        cbn in H. injection H as <- <-. apply Hsnoc.
      * cbn in H. injection H as <- <-. apply Hsnoc.
    + eapply IH; [apply Hsnoc|exact H].
Qed.

Lemma long_has_args_name opt b name :
  has_char "=" opt = false ->
  long_has_args opt LONGOPTS = Ok (b, name) -> In name LONG_NAMES.
Proof.
  intros Heq. unfold long_has_args.
  set (possibilities := List.filter (startswith opt) LONGOPTS).
  assert (Hsub : forall x, In x possibilities -> In x LONGOPTS).
  { intros x Hx. now apply List.filter_In in Hx. }
  destruct possibilities as [|u others] eqn:Hp; [discriminate|].
  destruct (existsb (String.eqb opt) (u :: others)) eqn:He.
  { intros [= <- <-]. apply List.existsb_exists in He as (x & Hx & Hox).
    apply String.eqb_eq in Hox. subst x. apply Hsub in Hx.
    cbn in Hx. destruct Hx as [<-|[<-|[<-|[<-|[]]]]];
      try discriminate Heq. vm_compute. tauto. }
  destruct (existsb (String.eqb (opt ++ "=")%string) (u :: others)) eqn:He2.
  { intros [= <- <-]. apply List.existsb_exists in He2 as (x & Hx & Hox).
    apply String.eqb_eq in Hox. apply Hsub in Hx.
    assert (Ho : opt = drop_last 1 x)
      by (rewrite <- Hox; symmetry; apply (drop_last_app opt "=")).
    cbn in Hx. destruct Hx as [<-|[<-|[<-|[<-|[]]]]];
      vm_compute in Ho; subst opt; try discriminate Hox; vm_compute; tauto. }
  destruct others; [|discriminate].
  intros [= <- <-]. specialize (Hsub u (or_introl eq_refl)).
  cbn in Hsub. destruct Hsub as [<-|[<-|[<-|[<-|[]]]]]; vm_compute; tauto.
Qed.

Lemma index_char_None c s : index_char c s = None -> has_char c s = false.
Proof.
  induction s as [|a s IH]; [reflexivity|]. cbn.
  destruct (Ascii.eqb a c); [discriminate|].
  destruct (index_char c s); [discriminate|]. intros _. now apply IH.
Qed.

Lemma index_char_Some c s : forall i,
  index_char c s = Some i -> has_char c (take_first i s) = false.
Proof.
  unfold take_first.
  induction s as [|a s IH]; intros i; [discriminate|]. cbn.
  destruct (Ascii.eqb a c) eqn:Ha.
  - intros [= <-]. reflexivity.
  - destruct (index_char c s) as [j|]; [|discriminate].
    intros [= <-]. cbn. rewrite Ha. now apply IH.
Qed.

Lemma long_name_key name : In name LONG_NAMES -> In ("--" ++ name)%string OPTION_KEYS.
Proof.
  cbn. intros [<-|[<-|[<-|[<-|[]]]]]; vm_compute; tauto.
Qed.

Lemma do_longs_keys opts opt args opts' args' :
  Forall (fun o => In (fst o) OPTION_KEYS) opts ->
  do_longs opts opt LONGOPTS args = Ok (opts', args') ->
  Forall (fun o => In (fst o) OPTION_KEYS) opts'.
Proof.
  intros Ho. unfold do_longs.
  assert (Hname : has_char "="
            (match index_char "=" opt with
             | None => (opt, None)
             | Some i => (take_first i opt, Some (drop_first (S i) opt))
             end).1 = false).
  { destruct (index_char "=" opt) as [i|] eqn:Hi; cbn.
    - now apply index_char_Some.
    - now apply index_char_None. }
  destruct (match index_char "=" opt with
            | None => (opt, None)
            | Some i => (take_first i opt, Some (drop_first (S i) opt))
            end) as [name optarg]. cbn in Hname.
  destruct (long_has_args name LONGOPTS) as [[b name']|x] eqn:Hl; [|discriminate].
  apply long_has_args_name, long_name_key in Hl; [|exact Hname].
  cbn [rbind].
  assert (Hsnoc : forall v,
    Forall (fun o => In (fst o) OPTION_KEYS)
           (opts ++ [(("--" ++ name')%string, v)])).
  { intros v. apply Forall_app. split; [exact Ho|].
    apply List.Forall_cons; [exact Hl|constructor]. }
  destruct b, optarg as [v|], args as [|a args]; cbn; intros H;
    try discriminate H; injection H as <- <-; apply Hsnoc.
Qed.

Lemma getopt_loop_keys fuel : forall opts args opts' args',
  Forall (fun o => In (fst o) OPTION_KEYS) opts ->
  getopt_loop fuel opts args SHORTOPTS LONGOPTS = Ok (opts', args') ->
  Forall (fun o => In (fst o) OPTION_KEYS) opts'.
Proof.
  induction fuel as [|fuel IH]; intros opts args opts' args' Ho H.
  - destruct args as [|arg0 rest]; cbn in H; [now injection H as <- <-|].
    destruct (_ && _); [|now injection H as <- <-].
    destruct (String.eqb arg0 "--"); now injection H as <- <-.
  - destruct args as [|arg0 rest]; cbn [getopt_loop] in H;
      [now injection H as <- <-|].
    destruct (_ && _); [|now injection H as <- <-].
    destruct (String.eqb arg0 "--"); [now injection H as <- <-|].
    destruct (startswith "--" arg0).
    + destruct (do_longs opts (drop_first 2 arg0) LONGOPTS rest)
        as [[opts1 args1]|x] eqn:Hd; [|discriminate H].
      cbn [rbind] in H. eapply IH; [|exact H].
      eapply do_longs_keys; eassumption.
    + destruct (do_shorts opts (drop_first 1 arg0) SHORTOPTS rest)
        as [[opts1 args1]|x] eqn:Hd; [|discriminate H].
      cbn [rbind] in H. eapply IH; [|exact H].
      eapply do_shorts_keys; eassumption.
Qed.

End GetoptFacts.

(** X6: every option that the [getopt] call of [main] returns has one of
    the ten keys [-l], [-s], [-u], [-p], [-d], [-a], [--local-path],
    [--server], [--server-path], [--restart-apache]: an abbreviated long
    option is returned under its full name. *)
Theorem getopt_keys args options_list arguments :
  Getopt.getopt args SHORTOPTS LONGOPTS = Ok (options_list, arguments) ->
  Forall (fun o => In (fst o) OPTION_KEYS) options_list.
Proof.
  unfold Getopt.getopt. apply GetoptFacts.getopt_loop_keys. constructor.
Qed.

(** The fuel of [getopt_loop] *)

Module GetoptFuel.
Import Getopt PyStr.

Lemma do_shorts_length so optstring : forall opts args opts' args',
  do_shorts opts optstring so args = Ok (opts', args') ->
  List.length args' <= List.length args.
Proof.
  induction optstring as [|c s IH]; intros opts args opts' args' H.
  - injection H as <- <-. lia.
  - cbn [do_shorts] in H.
    destruct (short_has_arg c so) as [[]|x]; cbn [rbind] in H;
      [|eapply IH; exact H|discriminate H].
    destruct (String.eqb s "").
    + destruct args as [|a args]; [discriminate H|].
      cbn in H. injection H as <- <-. cbn. lia.
    + cbn in H. injection H as <- <-. lia.
Qed.

Lemma do_longs_length lo opts opt args opts' args' :
  do_longs opts opt lo args = Ok (opts', args') ->
  List.length args' <= List.length args.
Proof.
  unfold do_longs.
  destruct (match index_char "=" opt with
            | None => (opt, None)
            | Some i => (take_first i opt, Some (drop_first (S i) opt))
            end) as [name optarg].
  destruct (long_has_args name lo) as [[b name']|x]; [|discriminate].
  cbn [rbind].
  destruct b, optarg as [v|], args as [|a args]; cbn; intros H;
    try discriminate H; injection H as <- <-; cbn; lia.
Qed.

(** The loop of [getopt] consumes an argument at every iteration: any fuel
    above the number of arguments gives the same result. *)
Lemma getopt_loop_fuel so lo fuel : forall fuel' opts args,
  List.length args <= fuel -> List.length args <= fuel' ->
  getopt_loop fuel opts args so lo = getopt_loop fuel' opts args so lo.
Proof.
  induction fuel as [|fuel IH]; intros fuel' opts args Hf Hf'.
  - destruct args; [|cbn in Hf; lia]. now destruct fuel'.
  - destruct args as [|arg0 rest]; [now destruct fuel'|].
    destruct fuel' as [|fuel']; [cbn in Hf'; lia|].
    cbn in Hf, Hf'. cbn [getopt_loop].
    destruct (_ && _); [|reflexivity].
    destruct (String.eqb arg0 "--"); [reflexivity|].
    destruct (startswith "--" arg0).
    + destruct (do_longs opts (drop_first 2 arg0) lo rest)
        as [[opts1 args1]|x] eqn:Hd; [|reflexivity].
      apply do_longs_length in Hd. cbn [rbind]. apply IH; lia.
    + destruct (do_shorts opts (drop_first 1 arg0) so rest)
        as [[opts1 args1]|x] eqn:Hd; [|reflexivity].
      apply do_shorts_length in Hd. cbn [rbind]. apply IH; lia.
Qed.

End GetoptFuel.

Lemma dict_getitem_contains d k :
  dict_contains d k = true -> exists v, dict_getitem d k = Ok v.
Proof.
  unfold dict_contains, dict_getitem.
  destruct (d !! k) as [v|]; [eauto|discriminate].
Qed.

Lemma slot_witness attributes i :
  OPTIONS_LIST_MIN <= List.length attributes ->
  is_attributes_valid attributes = Ok true ->
  i < List.length attributes ->
  exists a, In a attributes /\ sets_slot (List.length attributes) a i = true.
Proof.
  intros Hn Hv Hi. rewrite is_attributes_valid_all_slots in Hv by exact Hn.
  injection Hv as Hv. unfold all_slots_set in Hv.
  rewrite List.forallb_forall in Hv.
  specialize (Hv i). rewrite List.in_seq in Hv.
  apply List.existsb_exists. apply Hv. lia.
Qed.

Lemma slot0_keys n a :
  In a OPTION_KEYS -> sets_slot n a 0 = true -> a = "-l" \/ a = "--local-path".
Proof.
  cbn. intros [<-|[<-|[<-|[<-|[<-|[<-|[<-|[<-|[<-|[<-|[]]]]]]]]]]];
    cbn; intros H; try discriminate H; tauto.
Qed.

Lemma slot2_keys n a :
  In a OPTION_KEYS -> sets_slot n a 2 = true -> a = "-d".
Proof.
  cbn. intros [<-|[<-|[<-|[<-|[<-|[<-|[<-|[<-|[<-|[<-|[]]]]]]]]]]];
    cbn; intros H; try discriminate H; tauto.
Qed.

Lemma slot1_keys n a :
  In a OPTION_KEYS -> sets_slot n a 1 = true ->
  In a ["-s"; "--server"; "--server-path"; "--restart-apache"].
Proof.
  cbn. intros [<-|[<-|[<-|[<-|[<-|[<-|[<-|[<-|[<-|[<-|[]]]]]]]]]]];
    cbn; intros H; try discriminate H; tauto.
Qed.

(** X7: options that [getopt] returned and that pass the validation contain
    [-d], and [-l] or [--local-path]: the lookups of the local path and of
    the server path in [main] cannot raise [KeyError].  (The long spelling
    [--server-path] alone is never enough: it is taken for the server.) *)
Theorem accepted_options_have_short_destination args options_list arguments :
  Getopt.getopt args SHORTOPTS LONGOPTS = Ok (options_list, arguments) ->
  OPTIONS_LIST_MIN <= List.length options_list ->
  is_attributes_valid (map fst options_list) = Ok true ->
  let d := dict_of_options options_list in
  (dict_contains d "-l" = true \/ dict_contains d "--local-path" = true)
  /\ dict_contains d "-d" = true
  /\ (exists local_path,
        (if dict_contains d "--local-path" then dict_getitem d "--local-path"
         else dict_getitem d "-l") = Ok local_path)
  /\ (exists server_path,
        (if dict_contains d "--server-path" then dict_getitem d "--server-path"
         else dict_getitem d "-d") = Ok server_path).
Proof.
  intros Hg Hn Hv d.
  apply GetoptFacts.getopt_loop_keys in Hg; [|constructor].
  rewrite List.Forall_forall in Hg.
  assert (Hkey : forall a, In a (map fst options_list) -> In a OPTION_KEYS).
  { intros a Ha. apply List.in_map_iff in Ha as (o & <- & Ho). now apply Hg. }
  unfold OPTIONS_LIST_MIN in Hn.
  rewrite <- (List.length_map fst) in Hn.
  destruct (slot_witness _ 0 Hn Hv) as (a0 & Ha0 & Hs0); [lia|].
  destruct (slot_witness _ 2 Hn Hv) as (a2 & Ha2 & Hs2); [lia|].
  apply slot2_keys in Hs2; [subst a2|now apply Hkey].
  assert (Hd : dict_contains d "-d" = true) by now apply dict_contains_In.
  assert (Hl : dict_contains d "-l" = true \/ dict_contains d "--local-path" = true).
  { apply slot0_keys in Hs0; [|now apply Hkey].
    destruct Hs0 as [-> | ->]; [left|right]; now apply dict_contains_In. }
  split; [exact Hl|]. split; [exact Hd|]. split.
  - destruct (dict_contains d "--local-path") eqn:Hc;
      [now apply dict_getitem_contains|].
    destruct Hl as [Hl|Hl]; [now apply dict_getitem_contains|discriminate Hl].
  - destruct (dict_contains d "--server-path") eqn:Hc;
      now apply dict_getitem_contains.
Qed.

(** ** The strings of the session *)

Module LineFacts.
Import PyStr PyStrFacts.

Lemma has_char_app c a b :
  has_char c (a ++ b) = has_char c a || has_char c b.
Proof.
  induction a as [|x a IH]; [reflexivity|].
  rewrite app_cons. cbn. rewrite IH. apply orb_assoc.
Qed.

Lemma has_char_substring c s : forall k,
  has_char c s = false -> has_char c (String.substring 0 k s) = false.
Proof.
  induction s as [|x s IH]; intros [|k] H; try reflexivity.
  cbn in H |- *. apply orb_false_iff in H as [-> H]. now apply IH.
Qed.

Lemma has_char_drop_last c n s :
  has_char c s = false -> has_char c (drop_last n s) = false.
Proof. apply has_char_substring. Qed.

Lemma one_line_app body :
  one_line (body ++ LF) = negb (has_char LF_char body).
Proof.
  unfold one_line. induction body as [|x body IH].
  - reflexivity.
  - rewrite app_cons. cbn [index_char has_char String.length].
    destruct (Ascii.eqb x LF_char) eqn:Hx.
    + cbn. rewrite length_app. cbn. now rewrite Nat.add_comm.
    + cbn [orb]. rewrite <- IH.
      destruct (index_char LF_char (body ++ LF)); reflexivity.
Qed.

Lemma digit_cases d :
  In (digit d) ["0"; "1"; "2"; "3"; "4"; "5"; "6"; "7"; "8"; "9"]%char.
Proof.
  unfold digit. pose proof (Nat.mod_upper_bound d 10 ltac:(lia)) as H.
  destruct (d mod 10) as [|[|[|[|[|[|[|[|[|[|k]]]]]]]]]]; cbn; try tauto. lia.
Qed.

Lemma has_char_two_digits c n :
  (Ascii.ltb c "0" || Ascii.ltb "9" c = true)%char ->
  has_char c (two_digits n) = false.
Proof.
  intros Hc. unfold two_digits. cbn [has_char].
  assert (Hd : forall d, Ascii.eqb (digit d) c = false).
  { intros d. pose proof (digit_cases d) as Hin. cbn in Hin.
    destruct (Ascii.eqb_spec (digit d) c) as [He|]; [|reflexivity].
    rewrite He in Hin.
    destruct Hin as [<-|[<-|[<-|[<-|[<-|[<-|[<-|[<-|[<-|[<-|[]]]]]]]]]]];
      discriminate Hc. }
  now rewrite !Hd.
Qed.

Lemma length_two_digits n : String.length (two_digits n) = 2.
Proof. reflexivity. Qed.

End LineFacts.

Lemma has_char_strftime t c :
  (Ascii.ltb c "0" || Ascii.ltb "9" c = true)%char -> c <> "_"%char ->
  has_char c (strftime_d_m_y t) = false.
Proof.
  intros Hc Hu. unfold strftime_d_m_y.
  rewrite !LineFacts.has_char_app, !LineFacts.has_char_two_digits by exact Hc.
  assert (He : Ascii.eqb "_" c = false).
  { destruct (Ascii.eqb_spec "_" c) as [He|]; [|reflexivity].
    now contradiction Hu. }
  cbn [has_char]. rewrite He. reflexivity.
Qed.

Lemma length_substring_0 s : forall k,
  k <= String.length s -> String.length (String.substring 0 k s) = k.
Proof.
  induction s as [|a s IH]; intros [|k] Hk; cbn in Hk |- *; try lia.
  rewrite IH by lia. reflexivity.
Qed.

(** X9: the date stamp of the remote archive, [time.strftime("%d_%m_%y")],
    has eight characters whatever the clock says, and holds nothing but
    digits and underscores (so no space, slash or line break). *)
Theorem date_stamp_shape t c :
  (Ascii.ltb c "0" || Ascii.ltb "9" c = true)%char -> c <> "_"%char ->
  String.length (strftime_d_m_y t) = 8
  /\ has_char c (strftime_d_m_y t) = false.
Proof.
  intros Hc Hu. split; [|now apply has_char_strftime].
  unfold strftime_d_m_y. rewrite !PyStrFacts.length_app. reflexivity.
Qed.

(** X10: the file name that [main] passes to [__ssh_processing], the part of
    the archive path after the last slash, is [compressed_file.tar.bz2] for
    every local path, and the index [[0]] never raises.  The folder name
    [compressed_file_name[:-8]] is the name without its last eight
    characters: the stem of a name that ends in [.tar.bz2], the empty string
    for a name of eight characters or fewer. *)
Theorem session_names_fixed source name stem :
  list_getitem
    (list_last_slice
       (PyStr.split "/" (artifact_path (PurePath.parse source)))) 0
  = Ok "compressed_file.tar.bz2"
  /\ PyStr.drop_last 8 (stem ++ ".tar.bz2") = stem
  /\ String.length (PyStr.drop_last 8 name) = String.length name - 8.
Proof.
  split; [apply PurePathFacts.artifact_file_name|].
  split; [apply (drop_last_app stem ".tar.bz2")|].
  unfold PyStr.drop_last. apply length_substring_0. lia.
Qed.

(** ** The stages *)

Section StagesExtra.
Variable e : env.

(** What [__compress_local_file] leaves in the trace and on the file
    system, whether it returns or raises. *)
Lemma compress_local_file_events local_path st st' r :
  compress_local_file e local_path st = (st', r) ->
  forall evs, trace st' = trace st ++ evs ->
    forallb (fun ev => is_packager_op (ev_op ev)) evs = true
    /\ (forall x, r = Raise x -> failures evs = [x] /\ archives_closed evs = [])
    /\ (forall p, r = Ok p -> failures evs = [])
    /\ (creations evs = [] -> fs st' = fs st /\ exists x, r = Raise x)
    /\ (creations evs <> [] ->
        creations evs = [artifact_path local_path]
        /\ (exists n, fs st' !! artifact_path local_path = Some n)
        /\ forall q, q <> artifact_path local_path -> fs st' !! q = fs st !! q).
Proof.
  unfold compress_local_file. intros H. exec_in H.
  all: injection H as <- <-; trace_norm.
  all: intros evs Hevs; apply app_inv_head in Hevs; subst evs.
  all: split; [reflexivity|].
  all: split;
    [intros ? Hr; try discriminate Hr; injection Hr as <-; split; reflexivity|].
  all: split; [intros ? Hr; try discriminate Hr; reflexivity|].
  all: split;
    [intros Hc; first [discriminate Hc | split; [reflexivity|eauto]]|].
  all: intros Hc; try (now contradiction Hc).
  all: try destruct (String.eqb _ _).
  all: split; [reflexivity|].
  all: split;
    [rewrite ?lookup_insert_eq, ?insert_insert_eq, ?lookup_insert_eq; eauto|].
  all: intros q Hq; rewrite ?lookup_insert_eq, ?insert_insert_eq.
  all: apply lookup_insert_ne; intros Heq; apply Hq; symmetry; exact Heq.
Qed.

End StagesExtra.

(** Splits a list of known events into its last event and what comes
    before. *)
Ltac split_last :=
  lazymatch goal with
  | |- [?x] = _ => exact (eq_refl ([] ++ [x]))
  | |- ?x :: ?l = _ => apply cons_suffix; split_last
  end.

(** What [__ssh_processing] leaves in the trace, whether it returns or
    raises. *)
Lemma ssh_processing_events e name host path restart st st' r :
  ssh_processing e name host path restart st = (st', r) ->
  fs st' = fs st
  /\ forall evs, trace st' = trace st ++ evs ->
    forallb (fun ev => is_session_op (ev_op ev)) evs = true
    /\ (exists rest,
          remote_instructions (strftime_d_m_y (localtime e)) path name
                              (PyStr.drop_last 8 name) restart
          = session_writes evs ++ rest)
    /\ List.length (session_exits evs) = List.length (session_opens evs)
    /\ (session_opens evs <> [] ->
        exists before ev, evs = before ++ [ev] /\ ev_op ev = PopenExit)
    /\ (r = Ok tt <-> failures evs = [])
    /\ (forall x, r = Raise x -> last (failures evs) = Some x)
    /\ ((forall h a, fault e h (Popen a) = None) ->
        session_opens evs = [["ssh"; host]]).
Proof.
  unfold ssh_processing. intros H. exec_in H.
  all: injection H as <- <-; trace_norm.
  all: split; [reflexivity|].
  all: intros evs Hevs; apply app_inv_head in Hevs; subst evs.
  all: split; [reflexivity|].
  all: split; [unfold remote_instructions; eexists; reflexivity|].
  all: split; [reflexivity|].
  all: split;
    [|split; [split; [reflexivity + discriminate|discriminate + reflexivity]
             |split; [intros ? Hr; first [discriminate Hr
                                         |injection Hr as <-; reflexivity]
                     |intros Hopen;
                      try match goal with
                          | Hf : fault _ _ (Popen _) = Some _ |- _ =>
                              rewrite Hopen in Hf; discriminate Hf
                          end;
                      reflexivity]]].
  all: intros Hn; try (now contradiction Hn).
  all: eexists _, _; split; [split_last|reflexivity].
Qed.

Lemma packager_no_removal evs :
  forallb (fun ev => is_packager_op (ev_op ev)) evs = true ->
  removal_attempts evs = [].
Proof.
  unfold removal_attempts.
  induction evs as [|[[]|[]] evs IH]; cbn; try discriminate; auto.
Qed.

Lemma session_no_removal evs :
  forallb (fun ev => is_session_op (ev_op ev)) evs = true ->
  removal_attempts evs = [].
Proof.
  unfold removal_attempts.
  induction evs as [|[[]|[]] evs IH]; cbn; try discriminate; auto.
Qed.

Lemma remote_instructions_lines stamp path name entry restart :
  has_char LF_char stamp = false -> has_char LF_char path = false ->
  has_char LF_char name = false -> has_char LF_char entry = false ->
  forallb one_line (remote_instructions stamp path name entry restart) = true.
Proof.
  intros Hs Hp Hn He. unfold remote_instructions.
  rewrite List.forallb_app. cbn [forallb].
  rewrite <- !PyStrFacts.app_assoc.
  rewrite !LineFacts.one_line_app, !LineFacts.has_char_app.
  rewrite Hs, Hp, Hn, He. destruct restart; reflexivity.
Qed.

(** X11: [__compress_local_file] makes no call but those of the packaging
    and its messages and never tries to remove a file.  It raises exactly
    what the one failing call raised, and returns the archive path when no
    call failed.  Until the archive file is created the file system is
    unchanged; from then on the archive path holds a file, also when a later
    call raises (nothing is cleaned up), and no other path is changed. *)
Theorem packager_footprint e local_path st :
  let out := compress_local_file e local_path st in
  let artifact := artifact_path local_path in
  exists evs,
    trace out.1 = trace st ++ evs
    /\ forallb (fun ev => is_packager_op (ev_op ev)) evs = true
    /\ removal_attempts evs = []
    /\ match out.2 with
       | Ok p => p = artifact /\ failures evs = []
       | Raise x => failures evs = [x]
       end
    /\ (creations evs = [] -> fs out.1 = fs st /\ exists x, out.2 = Raise x)
    /\ (creations evs <> [] ->
        (exists n, fs out.1 !! artifact = Some n)
        /\ forall q, q <> artifact -> fs out.1 !! q = fs st !! q).
Proof.
  destruct (compress_local_file e local_path st) as [st' r] eqn:H.
  cbn [fst snd].
  destruct (compress_local_file_inv _ _ _ _ _ H)
    as (evs & Htr & _ & _ & _ & _ & Hok).
  destruct (compress_local_file_events _ _ _ _ _ H evs Htr)
    as (Hop & Hraise & Hnone & Hnew & Hcre).
  exists evs. split; [exact Htr|]. split; [exact Hop|].
  split; [now apply packager_no_removal|]. split; [|split; [exact Hnew|]].
  - destruct r as [p|x]; [|exact (proj1 (Hraise x eq_refl))].
    split; [now apply Hok|now apply (Hnone p)].
  - intros Hc. now apply Hcre.
Qed.

(** X12: [__ssh_processing] leaves the local file system alone and makes no
    call but those of the session and its messages.  A session that was
    opened is closed exactly once, as the last call, whether the body of the
    [with] block raises or not, and none is closed that was not opened.  The
    function returns if and only if no call raised; when it raises, it
    raises what the last failing call raised. *)
Theorem session_always_closed e name host path restart st :
  let out := ssh_processing e name host path restart st in
  fs out.1 = fs st
  /\ exists evs,
    trace out.1 = trace st ++ evs
    /\ forallb (fun ev => is_session_op (ev_op ev)) evs = true
    /\ List.length (session_exits evs) = List.length (session_opens evs)
    /\ (session_opens evs <> [] ->
        exists before ev, evs = before ++ [ev] /\ ev_op ev = PopenExit)
    /\ (out.2 = Ok tt <-> failures evs = [])
    /\ (forall x, out.2 = Raise x -> last (failures evs) = Some x).
Proof.
  destruct (ssh_processing e name host path restart st) as [st' r] eqn:H.
  cbn [fst snd].
  destruct (ssh_processing_inv _ _ _ _ _ _ _ _ H) as (_ & evs & Htr & _).
  destruct (ssh_processing_events _ _ _ _ _ _ _ _ H) as (Hfs & Hev).
  destruct (Hev evs Htr) as (Hop & _ & Hlen & Hlast & Hok & Hraise & _).
  split; [exact Hfs|]. exists evs. tauto.
Qed.

(** X13: whatever fails, the data written to the session are an initial
    segment of the instruction list of the protocol, in order; when
    [__ssh_processing] returns, they are the whole list. *)
Theorem session_writes_follow_protocol e name host path restart st :
  let out := ssh_processing e name host path restart st in
  exists evs rest,
    trace out.1 = trace st ++ evs
    /\ remote_instructions (strftime_d_m_y (localtime e)) path name
                           (PyStr.drop_last 8 name) restart
       = session_writes evs ++ rest
    /\ (out.2 = Ok tt -> rest = []).
Proof.
  destruct (ssh_processing e name host path restart st) as [st' r] eqn:H.
  cbn [fst snd].
  destruct (ssh_processing_inv _ _ _ _ _ _ _ _ H)
    as (_ & evs & Htr & _ & _ & _ & _ & _ & Hok).
  destruct (ssh_processing_events _ _ _ _ _ _ _ _ H) as (_ & Hev).
  destruct (Hev evs Htr) as (_ & (rest & Hrest) & _).
  exists evs, rest. split; [exact Htr|]. split; [exact Hrest|].
  intros Hr. specialize (Hok Hr). subst evs.
  rewrite session_writes_app, session_writes_streaming in Hrest.
  change (session_writes [Done StdinFlush; Done PopenExit])
    with (@nil string) in Hrest.
  apply (f_equal (@List.length string)) in Hrest.
  rewrite !List.length_app in Hrest.
  destruct rest; [reflexivity|cbn in Hrest; lia].
Qed.

(** X14: when neither the server path nor the file name holds a line break,
    every datum written to the session is one line: it ends with a line
    break and holds no other. *)
Theorem written_instructions_are_lines e name host path restart st :
  has_char LF_char path = false -> has_char LF_char name = false ->
  let out := ssh_processing e name host path restart st in
  exists evs,
    trace out.1 = trace st ++ evs
    /\ forallb one_line (session_writes evs) = true.
Proof.
  intros Hp Hn.
  destruct (ssh_processing e name host path restart st) as [st' r] eqn:H.
  cbn [fst].
  destruct (ssh_processing_inv _ _ _ _ _ _ _ _ H) as (_ & evs & Htr & _).
  destruct (ssh_processing_events _ _ _ _ _ _ _ _ H) as (_ & Hev).
  destruct (Hev evs Htr) as (_ & (rest & Hrest) & _).
  exists evs. split; [exact Htr|].
  pose proof (remote_instructions_lines (strftime_d_m_y (localtime e)) path
                name (PyStr.drop_last 8 name) restart) as Hl.
  rewrite Hrest, List.forallb_app in Hl.
  apply andb_true_iff in Hl; [tauto| | | |]; try assumption.
  - now apply has_char_strftime.
  - now apply LineFacts.has_char_drop_last.
Qed.

(** ** [main] *)

(** Splits a trace at the events [s] it ends with. *)
Ltac suffix_of s :=
  lazymatch goal with
  | |- s = _ => exact (eq_refl ([] ++ s))
  | |- ?x :: ?l = _ => apply cons_suffix; suffix_of s
  | |- ?p ++ ?l = _ => apply app_suffix; suffix_of s
  end.

(** A run ends with the success of the deployment or in the handler of
    [main]. *)
Lemma run_outcome e files argv st r :
  run e files argv = (st, r) ->
  r = Ok ExitCodes.SUCCESS
  \/ exists x tr, trace st = tr ++ handler_prints x /\ r = handler_result x.
Proof.
  intros H. unfold run, main, deploy in H. exec_in H.
  all: rewrite ?handler_eq in H; cbn [trace fs app] in H.
  all: injection H as <- <-.
  all: first [left; reflexivity | right].
  all: cbn [trace]; rewrite <- ?List.app_assoc.
  all: eexists _, _; split; [|reflexivity].
  all: lazymatch goal with
       | |- context [handler_prints ?x] => suffix_of (handler_prints x)
       end.
Qed.

Lemma handler_result_cases x :
  handler_result x = Ok ExitCodes.IO_ERROR /\ is_Exception x = true
  \/ handler_result x = Ok ExitCodes.ATTRIBUTE_ERROR /\ is_Exception x = true
  \/ handler_result x = Raise TYPE_ERROR /\ is_Exception x = true
  \/ handler_result x = Raise x /\ is_Exception x = false.
Proof. destruct x as [[] msg]; cbn; tauto. Qed.



(** X16: when [main] returns [ExitCodes.IO_ERROR] or
    [ExitCodes.ATTRIBUTE_ERROR], or raises the [TypeError] of its last
    handler, the last thing it did was to print one message in the error
    colours. *)
Theorem failure_reported_last e files argv :
  let out := run e files argv in
  out.2 = Ok ExitCodes.IO_ERROR \/ out.2 = Ok ExitCodes.ATTRIBUTE_ERROR
  \/ out.2 = Raise TYPE_ERROR ->
  exists message,
    List.last (trace out.1) (Done (Print []))
    = Done (Print [ERROR_COLORS; message]).
Proof.
  destruct (run e files argv) as [st r] eqn:H. cbn. intros Hr.
  apply run_outcome in H as [->|(x & tr & -> & ->)].
  - destruct Hr as [Hr|[Hr|Hr]]; discriminate Hr.
  - exists (exn_msg x). unfold handler_prints.
    destruct (handler_result_cases x) as [[_ ->]|[[_ ->]|[[_ ->]|[Hx Hn]]]];
      try apply List.last_last.
    rewrite Hx in Hr. exfalso.
    destruct Hr as [Hr|[Hr|Hr]]; try discriminate Hr.
    injection Hr as ->. discriminate Hn.
Qed.

(** Like [run_cases], with the facts of [compress_local_file_events] and
    [ssh_processing_events] on the events of the stages. *)
Ltac stage_events :=
  repeat match goal with
    | Hc : compress_local_file ?e ?p ?s = (?s', ?r) |- _ =>
        lazymatch goal with
        | _ : forall evs, trace s' = trace s ++ evs -> _ |- _ => fail
        | _ => pose proof (compress_local_file_events e p s s' r Hc)
        end
    | Hs : ssh_processing ?e ?n ?h ?p ?b ?s = (?s', ?r) |- _ =>
        lazymatch goal with
        | _ : forall evs, trace s' = trace s ++ evs -> _ |- _ => fail
        | _ => pose proof (proj2 (ssh_processing_events e n h p b s s' r Hs))
        end
    end.

Ltac stage_events_at :=
  repeat match goal with
    | Hn : forall evs, trace ?s' = trace ?s ++ evs -> _,
      Ht : trace ?s' = trace ?s ++ ?x |- _ =>
        specialize (Hn x Ht)
    end.

Ltac run_cases_events H :=
  unfold run, main, deploy in H;
  exec_in H;
  rewrite ?handler_eq in H; cbn [trace fs app] in H;
  injection H as <- <-;
  stage_events; stage_inv; stage_events_at; leaf_inv; cbn [trace fs app] in *.

(** X17: the stages of [main] run in order and each one waits for the one
    before: the remote copy is attempted only after the archive was closed,
    the session only after the copy ran to completion, and the removal of
    the archive only after the session was flushed and closed. *)
Theorem stages_run_in_order e files argv :
  let tr := trace (run e files argv).1 in
  (call_attempts tr <> [] -> archives_closed tr <> [])
  /\ (session_attempts tr <> [] -> call_completions tr <> [])
  /\ (removal_attempts tr <> [] ->
      In (Done StdinFlush) tr /\ In (Done PopenExit) tr).
Proof.
  destruct (run e files argv) as [st r] eqn:H. cbn [fst].
  run_cases_events H.
  all: repeat match goal with
         | Hf : forallb (fun ev => is_packager_op (ev_op ev)) ?x = true /\ _
           |- _ => pose proof (packager_no_removal x (proj1 Hf)); clear Hf
         | Hf : forallb (fun ev => is_session_op (ev_op ev)) ?x = true /\ _
           |- _ => pose proof (session_no_removal x (proj1 Hf)); clear Hf
         end.
  all: stage_facts.
  all: unfold archives_closed, removal_attempts in *.
  all: observe; rewrite ?app_nil_r.
  all: split; [|split].
  all: intros Hn; try (now contradiction Hn); try discriminate.
  all: try match goal with
         | Hx : ?x = streaming_events _ _ _ _ _ ++ _ |- _ => subst x
         end.
  all: repeat (progress cbn [In] || rewrite in_app_iff); tauto.
Qed.

Lemma archives_closed_packaging local_path is_dir :
  archives_closed (packaging_events local_path is_dir)
  = [artifact_path local_path].
Proof. reflexivity. Qed.

Lemma session_no_archive evs :
  forallb (fun ev => is_session_op (ev_op ev)) evs = true ->
  archives_closed evs = [].
Proof.
  unfold archives_closed.
  induction evs as [|[[]|[]] evs IH]; cbn; try discriminate; auto.
Qed.

(** C8: the exit status of the remote copy does not affect control flow.
    A run is the same run, event for event, whatever status
    [subprocess.call] returns; [subprocess.call] is attempted at most once per
    run, and when the copy ran to completion it is the only attempt, it is
    the [scp] of the artifact, and the run goes on to open the [ssh]
    session, which is never attempted without a completed copy.  Whenever
    the packaging closed the archive and the server and its path are found,
    exactly one attempt is made: the [scp] of that archive to
    [server:path]; when the call does not raise, the run goes on to open the
    session, and it streams the whole instruction sequence when the session
    opens and takes the writes. *)
Theorem scp_status_is_advisory e files argv st r :
  run e files argv = (st, r) ->
  (forall status, run (with_call_status e status) files argv = (st, r))
  /\ List.length (call_attempts (trace st)) <= 1
  /\ (call_completions (trace st) <> [] ->
      exists artifact host path,
        call_attempts (trace st)
        = [["scp"; artifact; (host ++ ":" ++ path)%string]]
        /\ session_attempts (trace st) = [["ssh"; host]])
  /\ (session_attempts (trace st) <> [] -> call_completions (trace st) <> [])
  /\ forall options_list arguments server_path server_name,
       Getopt.getopt (drop 1 argv) SHORTOPTS LONGOPTS
       = Ok (options_list, arguments) ->
       (if dict_contains (dict_of_options options_list) "--server-path"
        then dict_getitem (dict_of_options options_list) "--server-path"
        else dict_getitem (dict_of_options options_list) "-d")
       = Ok server_path ->
       (if dict_contains (dict_of_options options_list) "--server"
        then dict_getitem (dict_of_options options_list) "--server"
        else dict_getitem (dict_of_options options_list) "-s")
       = Ok server_name ->
       archives_closed (trace st) <> [] ->
       exists artifact,
         archives_closed (trace st) = [artifact]
         /\ call_attempts (trace st)
            = [["scp"; artifact; (server_name ++ ":" ++ server_path)%string]]
         /\ ((forall h a, fault e h (Call a) = None) ->
             call_completions (trace st) = call_attempts (trace st)
             /\ session_attempts (trace st) = [["ssh"; server_name]]
             /\ ((forall h a, fault e h (Popen a) = None) ->
                 (forall h d, fault e h (StdinWrite d) = None) ->
                 session_writes (trace st)
                 = remote_instructions (strftime_d_m_y (localtime e))
                     server_path "compressed_file.tar.bz2" "compressed_file"
                     (dict_contains (dict_of_options options_list)
                                    "--restart-apache"))).
Proof.
  intros H. split.
  { intros status. rewrite run_call_status. exact H. }
  run_cases_events H.
  all: stage_facts.
  all: repeat match goal with
         | Ha : call_attempts ?x = [] |- _ =>
             lazymatch goal with
             | _ : call_completions x = [] |- _ => fail
             | _ => pose proof (call_completions_none _ Ha)
             end
         end.
  all: try match goal with
         | |- context [packaging_events ?p ?d] =>
             pose proof (archives_closed_packaging p d)
         end.
  all: repeat match goal with
         | Hf : forallb (fun ev => is_packager_op (ev_op ev)) ?x = true
                /\ (forall z, Raise ?y = Raise z -> _) /\ _ |- _ =>
             pose proof (proj2 (proj1 (proj2 Hf) y eq_refl)); clear Hf
         | Hf : forallb (fun ev => is_packager_op (ev_op ev)) ?x = true /\ _
           |- _ => clear Hf
         | Hf : forallb (fun ev => is_session_op (ev_op ev)) ?x = true /\ _
           |- _ =>
             pose proof (session_no_archive x (proj1 Hf));
             destruct Hf as (_ & _ & _ & _ & _ & _ & Hf)
         end.
  all: unfold archives_closed in *.
  all: observe; rewrite ?app_nil_r.
  all: split; [cbn; lia|].
  all: split; [intros Hc; try (now contradiction Hc);
               eexists _, _, _; split; reflexivity|].
  all: split; [intros Hc; try (now contradiction Hc); discriminate|].
  all: intros options_list arguments server_path server_name Hg Hp Hh Hclosed.
  all: try (now contradiction Hclosed).
  all: injection Hg as <- <-.
  all: match goal with
       | Ha : ?X = ?v |- _ =>
           lazymatch type of Hp with
           | X = ?w => tryif constr_eq v w then fail else rewrite Ha in Hp
           end
       end; try discriminate Hp; injection Hp as <-.
  all: match goal with
       | Ha : ?X = ?v |- _ =>
           lazymatch type of Hh with
           | X = ?w => tryif constr_eq v w then fail else rewrite Ha in Hh
           end
       end; try discriminate Hh; injection Hh as <-.
  all: eexists; split; [reflexivity|]; split; [reflexivity|].
  all: intros Hcall.
  all: try match goal with
         | Hf : fault _ _ (Call _) = Some _ |- _ =>
             rewrite Hcall in Hf; discriminate Hf
         end.
  all: split; [reflexivity|]; split; [reflexivity|].
  all: intros Hopen Hwrite.
  all: match goal with
       | Ho : (forall h a, fault _ h (Popen a) = None) -> ?opens = _,
         Hs : ?opens <> [] -> _ -> _ = _ |- _ =>
           apply Hs; [rewrite (Ho Hopen); discriminate|exact Hwrite]
       end.
Qed.

Lemma session_no_creation evs :
  forallb (fun ev => is_session_op (ev_op ev)) evs = true ->
  creations evs = [].
Proof.
  unfold creations.
  induction evs as [|[[]|[]] evs IH]; cbn; try discriminate; auto.
Qed.

(** X20: a run that created the archive file and does not return
    [ExitCodes.SUCCESS] leaves it behind: exactly one file was created, it
    is still on the disk when [main] ends, and nothing was removed. *)
Theorem failure_leaves_archive e files argv :
  let out := run e files argv in
  creations (trace out.1) <> [] ->
  out.2 <> Ok ExitCodes.SUCCESS ->
  exists archive n,
    creations (trace out.1) = [archive]
    /\ fs out.1 !! archive = Some n
    /\ removals (trace out.1) = [].
Proof.
  destruct (run e files argv) as [st r] eqn:H. cbn [fst snd].
  run_cases_events H.
  all: repeat match goal with
         | Hf : forallb (fun ev => is_session_op (ev_op ev)) ?x = true /\ _
           |- _ => pose proof (session_no_creation x (proj1 Hf)); clear Hf
         end.
  all: stage_facts.
  all: unfold creations in *.
  all: observe; rewrite ?app_nil_r.
  all: intros Hc Hr; try (now contradiction Hc); try (now contradiction Hr).
  all: try match goal with
         | Hf : _ /\ _ /\ _ /\ _ /\ (?c <> [] -> _) |- _ =>
             destruct Hf as (_ & _ & _ & _ & Hf);
             destruct (Hf Hc) as (Hone & (n & Hn) & _);
             eexists; exists n; split; [exact Hone|]; split; [exact Hn|reflexivity]
         end.
  all: eexists _, _; split; [reflexivity|]; split; [|reflexivity].
  all: match goal with
       | Hfs : ?f = <[_ := _]> _ |- _ => rewrite Hfs
       | _ => idtac
       end.
  all: apply lookup_insert_eq.
Qed.

Lemma compress_local_file_quiet e local_path st :
  (forall h o, is_packaging_op o = true -> fault e h o = None) ->
  exists st',
    compress_local_file e local_path st = (st', Ok (artifact_path local_path))
    /\ trace st'
       = trace st
         ++ packaging_events local_path
              (node_is_dir (fs st !! PurePath.str local_path))
    /\ fs st' = <[artifact_path local_path :=
                    TarArchive (archive_members e local_path)]> (fs st).
Proof.
  intros Hquiet.
  destruct (compress_local_file e local_path st) as [st' r] eqn:H.
  pose proof H as H'. apply compress_local_file_inv in H' as (evs & Htr & _ & _ & _ & _ & Hok).
  unfold compress_local_file in H. exec_in H.
  all: try match goal with
         | Hf : fault _ _ _ = Some _ |- _ =>
             rewrite Hquiet in Hf by reflexivity; discriminate Hf
         end.
  all: injection H as <- <-.
  all: destruct (Hok _ eq_refl) as (_ & -> & Hfs).
  all: eexists; split; [reflexivity|]; split; [exact Htr|exact Hfs].
Qed.

Lemma dict_getitem_missing d k :
  dict_contains d k = false ->
  dict_getitem d k = Raise (mk_exn KeyError ("'" ++ k ++ "'")).
Proof.
  unfold dict_contains, dict_getitem. destruct (d !! k); [discriminate|reflexivity].
Qed.

(** X18: what happens whenever options without [-s] and without [--server]
    pass the validation, the local path exists and the packaging does not
    fail: the archive is created (with the source as its member, unless the
    source is the archive itself), the lookup of the server raises
    [KeyError], nothing is copied, the key is printed in the error colours,
    and the [TypeError] of the last handler escapes [main]; the archive
    stays on the disk. *)
Theorem missing_server_escapes e files argv options_list arguments
    local_path_arg server_path :
  Getopt.getopt (drop 1 argv) SHORTOPTS LONGOPTS
  = Ok (options_list, arguments) ->
  OPTIONS_LIST_MIN <= List.length options_list <= OPTIONS_LIST_MAX ->
  is_attributes_valid (map fst options_list) = Ok true ->
  let d := dict_of_options options_list in
  dict_contains d "--server" = false -> dict_contains d "-s" = false ->
  (if dict_contains d "--local-path" then dict_getitem d "--local-path"
   else dict_getitem d "-l") = Ok local_path_arg ->
  (if dict_contains d "--server-path" then dict_getitem d "--server-path"
   else dict_getitem d "-d") = Ok server_path ->
  let local_path := PurePath.parse local_path_arg in
  node_exists (files !! PurePath.str local_path) = true ->
  (forall h o, is_packaging_op o = true -> fault e h o = None) ->
  let out := run e files argv in
  out.2 = Raise TYPE_ERROR
  /\ fs out.1 !! artifact_path local_path
     = Some (TarArchive (archive_members e local_path))
  /\ call_attempts (trace out.1) = []
  /\ List.last (trace out.1) (Done (Print []))
     = Done (Print [ERROR_COLORS; "'-s'"]).
Proof.
  intros Hg Hn Hv d Hs1 Hs2 Hl Hd local_path Hex Hquiet.
  unfold run, main, deploy.
  cbv beta iota zeta delta
    [bind print ret raise lift try_except log print_message trace fs
     path_exists perform].
  rewrite Hg. cbv beta iota.
  assert (Hc : Nat.ltb (List.length options_list) OPTIONS_LIST_MIN
               || Nat.ltb OPTIONS_LIST_MAX (List.length options_list) = false).
  { apply orb_false_iff. rewrite !Nat.ltb_ge. lia. }
  rewrite Hc, Hv. cbv beta iota. cbn [negb]. cbv beta iota.
  fold d. rewrite Hl. cbv beta iota.
  rewrite Hquiet by reflexivity. cbv beta iota. cbn [effect].
  fold local_path. rewrite Hex. cbn [negb]. cbv beta iota.
  match goal with
  | |- context [compress_local_file e local_path ?st] =>
      destruct (compress_local_file_quiet e local_path st Hquiet)
        as (st' & -> & Htr & Hfs)
  end.
  cbv beta iota. rewrite Hd, Hs1, (dict_getitem_missing d "-s" Hs2).
  cbv beta iota. rewrite handler_eq. cbn [fst snd trace fs].
  rewrite Htr, Hfs. cbn [trace fs].
  split; [reflexivity|]. split; [apply lookup_insert_eq|].
  split; [|apply List.last_last].
  unfold call_attempts. rewrite !omap_app. reflexivity.
Qed.

(** ** The script *)


(** ** Witnesses of the further properties *)

Lemma is_attributes_valid_iff_witness :
  OPTIONS_LIST_MIN <= List.length demo_three_attributes
  /\ (exists valid, is_attributes_valid demo_three_attributes = Ok valid)
  /\ is_attributes_valid demo_three_attributes = Ok true.
Proof.
  assert (H : OPTIONS_LIST_MIN <= List.length demo_three_attributes)
    by (vm_compute; lia).
  split; [exact H|].
  split; [exact (proj1 (is_attributes_valid_iff demo_three_attributes H))|].
  reflexivity.
Defined.

Lemma validation_order_independent_witness :
  OPTIONS_LIST_MIN <= List.length ["-s"; "-l"; "-d"]
  /\ Permutation ["-s"; "-l"; "-d"] demo_three_attributes
  /\ is_attributes_valid demo_three_attributes
     = is_attributes_valid ["-s"; "-l"; "-d"].
Proof.
  assert (H : OPTIONS_LIST_MIN <= List.length ["-s"; "-l"; "-d"])
    by (vm_compute; lia).
  assert (Hp : Permutation ["-s"; "-l"; "-d"] demo_three_attributes)
    by apply perm_swap.
  split; [exact H|]. split; [exact Hp|].
  exact (validation_order_independent _ _ H Hp).
Defined.

Lemma more_than_four_never_valid_witness :
  OPTIONS_LIST_MAX < List.length demo_five_attributes
  /\ is_attributes_valid demo_five_attributes = Ok false.
Proof.
  assert (H : OPTIONS_LIST_MAX < List.length demo_five_attributes)
    by (vm_compute; lia).
  split; [exact H|]. exact (more_than_four_never_valid _ H).
Defined.

Lemma short_list_index_error_witness :
  List.length ["-d"] < OPTIONS_LIST_MIN
  /\ attribute_slot "-d" = Some 2
  /\ exists x, is_attributes_valid ["-d"] = Raise x /\ exn_cls x = IndexError.
Proof.
  assert (H : List.length ["-d"] < OPTIONS_LIST_MIN) by (vm_compute; lia).
  assert (Hs : attribute_slot "-d" = Some 2) by reflexivity.
  split; [exact H|]. split; [exact Hs|].
  apply (short_list_index_error ["-d"] "-d" 2 H); [now left|exact Hs|].
  simpl. lia.
Defined.

Lemma dict_of_options_last_wins_witness :
  ~ In "-l" (map fst [("-s", "example.org")])
  /\ dict_getitem
       (dict_of_options [("-l", "a"); ("-l", "b"); ("-s", "example.org")]) "-l"
     = Ok "b".
Proof.
  assert (H : ~ In "-l" (map fst [("-s", "example.org")])).
  { simpl. intros [H|[]]. discriminate H. }
  split; [exact H|].
  exact (proj1 (proj2 (dict_of_options_last_wins [("-l", "a")] "-l" "b"
                         [("-s", "example.org")] H))).
Defined.

Lemma getopt_keys_witness :
  Getopt.getopt (drop 1 demo_missing_argv) SHORTOPTS LONGOPTS
  = Ok (demo_options, [])
  /\ Forall (fun o => In (fst o) OPTION_KEYS) demo_options.
Proof.
  assert (H : Getopt.getopt (drop 1 demo_missing_argv) SHORTOPTS LONGOPTS
              = Ok (demo_options, [])) by reflexivity.
  split; [exact H|]. exact (getopt_keys _ _ _ H).
Defined.

Lemma accepted_options_have_short_destination_witness :
  Getopt.getopt (drop 1 demo_missing_argv) SHORTOPTS LONGOPTS
  = Ok (demo_options, [])
  /\ OPTIONS_LIST_MIN <= List.length demo_options
  /\ is_attributes_valid (map fst demo_options) = Ok true
  /\ dict_contains (dict_of_options demo_options) "-d" = true.
Proof.
  assert (H : Getopt.getopt (drop 1 demo_missing_argv) SHORTOPTS LONGOPTS
              = Ok (demo_options, [])) by reflexivity.
  assert (Hn : OPTIONS_LIST_MIN <= List.length demo_options)
    by (vm_compute; lia).
  assert (Hv : is_attributes_valid (map fst demo_options) = Ok true)
    by reflexivity.
  split; [exact H|]. split; [exact Hn|]. split; [exact Hv|].
  exact (proj1 (proj2 (accepted_options_have_short_destination
                         _ _ _ H Hn Hv))).
Defined.

Lemma wrong_option_count_rejected_witness :
  Getopt.getopt (drop 1 demo_single_option_argv) SHORTOPTS LONGOPTS
  = Ok ([("-l", "x")], [])
  /\ List.length [("-l", "x")] < OPTIONS_LIST_MIN
  /\ (run demo_env demo_files demo_single_option_argv).2
     = Ok ExitCodes.ATTRIBUTE_ERROR.
Proof.
  assert (H : Getopt.getopt (drop 1 demo_single_option_argv) SHORTOPTS LONGOPTS
              = Ok ([("-l", "x")], [])) by reflexivity.
  assert (Hn : List.length [("-l", "x")] < OPTIONS_LIST_MIN)
    by (vm_compute; lia).
  split; [exact H|]. split; [exact Hn|].
  exact (proj1 (wrong_option_count_rejected demo_env demo_files
                  demo_single_option_argv _ _ H (or_introl Hn))).
Defined.

Lemma date_stamp_shape_witness :
  (Ascii.ltb "/" "0" || Ascii.ltb "9" "/" = true)%char
  /\ "/"%char <> "_"%char
  /\ String.length (strftime_d_m_y (localtime demo_env)) = 8
  /\ has_char "/" (strftime_d_m_y (localtime demo_env)) = false.
Proof.
  assert (H : (Ascii.ltb "/" "0" || Ascii.ltb "9" "/" = true)%char)
    by reflexivity.
  assert (Hu : "/"%char <> "_"%char) by discriminate.
  split; [exact H|]. split; [exact Hu|].
  exact (date_stamp_shape (localtime demo_env) "/" H Hu).
Defined.

Lemma written_instructions_are_lines_witness :
  has_char LF_char "/srv/www" = false
  /\ has_char LF_char "compressed_file.tar.bz2" = false
  /\ exists evs,
       trace (ssh_processing demo_env "compressed_file.tar.bz2" "example.org"
                "/srv/www" true demo_state).1
       = trace demo_state ++ evs
       /\ forallb one_line (session_writes evs) = true.
Proof.
  assert (Hp : has_char LF_char "/srv/www" = false) by reflexivity.
  assert (Hn : has_char LF_char "compressed_file.tar.bz2" = false)
    by reflexivity.
  split; [exact Hp|]. split; [exact Hn|].
  exact (written_instructions_are_lines demo_env "compressed_file.tar.bz2"
           "example.org" "/srv/www" true demo_state Hp Hn).
Defined.

Lemma failure_reported_last_witness :
  demo_missing_out.2 = Ok ExitCodes.IO_ERROR
  /\ exists message,
       List.last (trace demo_missing_out.1) (Done (Print []))
       = Done (Print [ERROR_COLORS; message]).
Proof.
  assert (H : demo_missing_out.2 = Ok ExitCodes.IO_ERROR) by reflexivity.
  split; [exact H|].
  exact (failure_reported_last demo_env demo_files demo_missing_argv
           (or_introl H)).
Defined.

Lemma missing_server_escapes_witness :
  Getopt.getopt (drop 1 demo_missing_server_argv) SHORTOPTS LONGOPTS
  = Ok (demo_missing_server_options, [])
  /\ is_attributes_valid (map fst demo_missing_server_options) = Ok true
  /\ dict_contains (dict_of_options demo_missing_server_options) "--server"
     = false
  /\ dict_contains (dict_of_options demo_missing_server_options) "-s" = false
  /\ node_exists (demo_files !! PurePath.str (PurePath.parse "/home/u/site"))
     = true
  /\ (run demo_env demo_files demo_missing_server_argv).2 = Raise TYPE_ERROR
  /\ call_attempts (trace (run demo_env demo_files demo_missing_server_argv).1)
     = [].
Proof.
  assert (Hg : Getopt.getopt (drop 1 demo_missing_server_argv) SHORTOPTS
                 LONGOPTS = Ok (demo_missing_server_options, []))
    by reflexivity.
  assert (Hn : OPTIONS_LIST_MIN <= List.length demo_missing_server_options
               <= OPTIONS_LIST_MAX) by (vm_compute; lia).
  assert (Hv : is_attributes_valid (map fst demo_missing_server_options)
               = Ok true) by reflexivity.
  assert (Hs1 : dict_contains (dict_of_options demo_missing_server_options)
                  "--server" = false) by reflexivity.
  assert (Hs2 : dict_contains (dict_of_options demo_missing_server_options)
                  "-s" = false) by reflexivity.
  assert (Hex : node_exists
                  (demo_files !! PurePath.str (PurePath.parse "/home/u/site"))
                = true) by reflexivity.
  destruct (missing_server_escapes demo_env demo_files
              demo_missing_server_argv demo_missing_server_options []
              "/home/u/site" "/srv/www" Hg Hn Hv Hs1 Hs2)
    as (Hr & _ & Hc & _);
    [reflexivity|reflexivity|exact Hex|reflexivity|].
  split; [exact Hg|]. split; [exact Hv|]. split; [exact Hs1|].
  split; [exact Hs2|]. split; [exact Hex|]. split; [exact Hr|exact Hc].
Defined.

Lemma failure_leaves_archive_witness :
  creations (trace (run demo_env demo_files demo_missing_server_argv).1) <> []
  /\ (run demo_env demo_files demo_missing_server_argv).2
     <> Ok ExitCodes.SUCCESS
  /\ exists archive n,
       creations (trace (run demo_env demo_files demo_missing_server_argv).1)
       = [archive]
       /\ fs (run demo_env demo_files demo_missing_server_argv).1 !! archive
          = Some n
       /\ removals (trace (run demo_env demo_files demo_missing_server_argv).1)
          = [].
Proof.
  assert (Hc : creations
                 (trace (run demo_env demo_files demo_missing_server_argv).1)
               <> []) by (vm_compute; discriminate).
  assert (Hr : (run demo_env demo_files demo_missing_server_argv).2
               <> Ok ExitCodes.SUCCESS) by (vm_compute; discriminate).
  split; [exact Hc|]. split; [exact Hr|].
  exact (failure_leaves_archive demo_env demo_files demo_missing_server_argv
           Hc Hr).
Defined.

Lemma scp_status_is_advisory_witness :
  run demo_env demo_files demo_restart_argv = (demo_out.1, demo_out.2)
  /\ (forall status,
        run (with_call_status demo_env status) demo_files demo_restart_argv
        = (demo_out.1, demo_out.2))
  /\ List.length (call_attempts (trace demo_out.1)) <= 1
  /\ archives_closed (trace demo_out.1) <> []
  /\ exists artifact,
       archives_closed (trace demo_out.1) = [artifact]
       /\ call_attempts (trace demo_out.1)
          = [["scp"; artifact; "example.org:/srv/www"]]
       /\ call_completions (trace demo_out.1)
          = call_attempts (trace demo_out.1)
       /\ session_attempts (trace demo_out.1) = [["ssh"; "example.org"]]
       /\ List.length (session_writes (trace demo_out.1)) = 8.
Proof.
  assert (H : run demo_env demo_files demo_restart_argv
              = (demo_out.1, demo_out.2)) by apply surjective_pairing.
  assert (Hclosed : archives_closed (trace demo_out.1) <> [])
    by (vm_compute; discriminate).
  destruct (scp_status_is_advisory demo_env demo_files demo_restart_argv
              demo_out.1 demo_out.2 H) as (Hs & Hl & _ & _ & Hreach).
  destruct (Hreach demo_restart_options [] "/srv/www" "example.org"
              eq_refl eq_refl eq_refl Hclosed) as (artifact & Ha & Hc & Hgo).
  destruct Hgo as (Hdone & Hssh & Hw); [reflexivity|].
  split; [exact H|]. split; [exact Hs|]. split; [exact Hl|].
  split; [exact Hclosed|]. exists artifact.
  split; [exact Ha|]. split; [exact Hc|]. split; [exact Hdone|].
  split; [exact Hssh|]. rewrite Hw by reflexivity. reflexivity.
Defined.
